(** * uavsar_pytools: the scene orchestrator [UavsarScene]

    A shallow embedding of [uavsar_pytools/uavsar_scene.py] and of the
    collaborators it drives, together with the properties stated about
    them.  Python strings are modelled as ASCII strings, dictionaries
    as finite maps, the file system as a finite map from paths to
    nodes, and exceptions as an explicit result type. *)

From Stdlib Require Import Ascii QArith.
From stdpp Require Import gmap strings list fin_maps.

Local Open Scope Z_scope.
Local Open Scope nat_scope.

(** ** Python exceptions and results *)

Inductive exn : Type :=
| ValueError (msg : string)
| TypeError
| KeyError (key : string)
| IndexError
| UnboundLocalError (var : string)
| FileNotFoundError (path : string)
| FileExistsError (path : string)
| NotADirectoryError (path : string)
| NotFoundError (path : string)
| FormatError (path : string)
| MissingParameterError (key : string)
| SizeMismatchError (path : string)
| Exception (msg : string).

Inductive Res (A : Type) : Type :=
| Ok (a : A)
| Raise (e : exn).
Arguments Ok {A} a.
Arguments Raise {A} e.

(** ** Python built-ins on strings and lists *)

Module py.

Definition is_lower (c : ascii) : bool :=
  (97 <=? nat_of_ascii c) && (nat_of_ascii c <=? 122).

Definition upper_char (c : ascii) : ascii :=
  if is_lower c then ascii_of_nat (nat_of_ascii c - 32) else c.

(** [s.upper()] *)
Fixpoint upper (s : string) : string :=
  match s with
  | EmptyString => EmptyString
  | String c t => String (upper_char c) (upper t)
  end.

(** [needle in hay] for strings *)
Fixpoint contains (needle hay : string) : bool :=
  String.prefix needle hay ||
  match hay with
  | EmptyString => false
  | String _ t => contains needle t
  end.

(** [s.split(sep)] for a one-character separator *)
Fixpoint split (sep : ascii) (s : string) : list string :=
  match s with
  | EmptyString => [EmptyString]
  | String c t =>
      if Ascii.eqb c sep then EmptyString :: split sep t
      else match split sep t with
           | h :: r => String c h :: r
           | [] => [String c EmptyString]
           end
  end.

(** [l[0]] *)
Definition first {A} (l : list A) : Res A :=
  match l with
  | x :: _ => Ok x
  | [] => Raise IndexError
  end.

(** [l[-1]] *)
Definition final {A} (l : list A) : Res A :=
  match last l with
  | Some x => Ok x
  | None => Raise IndexError
  end.

(** truthiness of a list: [[]] is falsy *)
Definition nonempty {A} (l : list A) : bool :=
  match l with
  | [] => false
  | _ :: _ => true
  end.

(** truthiness of an optional string: [None] and [''] are falsy *)
Definition truthy (o : option string) : bool :=
  match o with
  | Some (String _ _) => true
  | _ => false
  end.

End py.

(** ** [os.path] on POSIX *)

Module posixpath.

Definition sep : ascii := "/"%char.

(** [(p[:i], p[i:])] with [i = p.rfind('/') + 1] *)
Fixpoint rsplit (p : string) : string * string :=
  match p with
  | EmptyString => (EmptyString, EmptyString)
  | String c t =>
      match rsplit t with
      | (EmptyString, b) =>
          if Ascii.eqb c sep then (String c EmptyString, b)
          else (EmptyString, String c b)
      | (h, b) => (String c h, b)
      end
  end.

Fixpoint all_sep (s : string) : bool :=
  match s with
  | EmptyString => true
  | String c t => Ascii.eqb c sep && all_sep t
  end.

(** [s.rstrip('/')] *)
Fixpoint rstrip (s : string) : string :=
  match s with
  | EmptyString => EmptyString
  | String c t =>
      match rstrip t with
      | EmptyString => if Ascii.eqb c sep then EmptyString else String c EmptyString
      | t' => String c t'
      end
  end.

Definition basename (p : string) : string := snd (rsplit p).

Definition dirname (p : string) : string :=
  let head := fst (rsplit p) in
  if all_sep head then head else rstrip head.

Fixpoint endswith_sep (s : string) : bool :=
  match s with
  | EmptyString => false
  | String c EmptyString => Ascii.eqb c sep
  | String _ t => endswith_sep t
  end.

Definition startswith_sep (s : string) : bool :=
  match s with
  | String c _ => Ascii.eqb c sep
  | EmptyString => false
  end.

(** one step of [os.path.join]: [path] extended by the component [b] *)
Definition join2 (path b : string) : string :=
  if startswith_sep b then b
  else match path with
       | EmptyString => b
       | _ => if endswith_sep path then path +:+ b
              else path +:+ String sep b
       end.

Definition join (a : string) (ps : list string) : string :=
  fold_left join2 ps a.

End posixpath.

(** ** Data model *)

(** A parsed annotation value: integer, float or string.  Floats are
    carried as rationals: the model only negates and compares them. *)
Inductive value : Type :=
| VInt (n : Z)
| VFloat (q : Q)
| VStr (s : string).

(** Annotation Record: parameter key ↦ (value, unit). *)
Abbreviation AnnotationRecord := (gmap string (value * string)).

(** One raw sample as it lies in the binary file. *)
Abbreviation pixel := (list Byte.byte).

Inductive PixelArray : Type :=
| Array2D (rows : list (list pixel))
| Array3D (bands : list (list (list pixel))).

(** The dictionary stored in [self.images[type]]; the ['array'] key is
    absent in low-memory mode. *)
Record ConversionResult : Type := {
  description : AnnotationRecord;
  array : option PixelArray;
  out_fp : string;
  type : string;
}.

Record UavsarScene : Type := {
  url : string;
  pair_name : string;
  work_dir : string;
  clean : bool;
  debug : bool;
  low_ram : bool;
  zipped_fp : option string;
  ann_fp : option string;
  binary_fps : list string;
  images : gmap string ConversionResult;
  tmp_dir : option string;
  pols : option (list string);
  out_dir : option string;   (* attribute set by [binary_to_tiffs] *)
}.

(** ** The constructor *)

Definition valid_pols : list string := ["VV"; "VH"; "HV"; "HH"].

(** [set(pols).issubset(valid)] *)
Definition issubset (pols valid : list string) : bool :=
  bool_decide ((list_to_set pols : gset string) ⊆ list_to_set valid).

Section Init.
(** [os.path.expanduser] depends on the process environment. *)
Variable expanduser : string → string.

Definition __init__ (url work_dir : string) (clean debug : bool)
    (pols : option (list string)) (low_ram : bool) : Res UavsarScene :=
  match py.first (py.split "." (posixpath.basename url)) with
  | Raise e => Raise e
  | Ok pair_name =>
      let self pols :=
        {| url := url; pair_name := pair_name;
           work_dir := expanduser work_dir;
           clean := clean; debug := debug; low_ram := low_ram;
           zipped_fp := None; ann_fp := None; binary_fps := [];
           images := ∅; tmp_dir := None; pols := pols;
           out_dir := None |} in
      match pols with
      | Some (p :: ps') =>
          let ps := map py.upper (p :: ps') in
          if issubset ps valid_pols then Ok (self (Some ps))
          else Raise (ValueError "Bad Polarization Provided.")
      | _ => Ok (self pols)
      end
  end.
End Init.

(** The constructor on a host where [os.path.expanduser] can raise
    (line 42: it does so with ValueError for a [~user] prefix that
    holds a null byte).  The pair name of line 41 is computed before,
    the filter of lines 51-58 is looked at after: an exception of
    [expanduser] leaves the constructor whatever the filter. *)
Definition __init__raising (expanduser : string → Res string)
    (url work_dir : string) (clean debug : bool)
    (pols : option (list string)) (low_ram : bool) : Res UavsarScene :=
  match py.first (py.split "." (posixpath.basename url)) with
  | Raise e => Raise e
  | Ok pair_name =>
      match expanduser work_dir with
      | Raise e => Raise e
      | Ok dir =>
          let self pols :=
            {| url := url; pair_name := pair_name;
               work_dir := dir;
               clean := clean; debug := debug; low_ram := low_ram;
               zipped_fp := None; ann_fp := None; binary_fps := [];
               images := ∅; tmp_dir := None; pols := pols;
               out_dir := None |} in
          match pols with
          | Some (p :: ps') =>
              let ps := map py.upper (p :: ps') in
              if issubset ps valid_pols then Ok (self (Some ps))
              else Raise (ValueError "Bad Polarization Provided.")
          | _ => Ok (self pols)
          end
      end
  end.

(** ** The file system and the log *)

(** A line of an annotation file, [key (unit) = value]. *)
Inductive ann_line : Type :=
| Blank
| Comment (text : string)
| Entry (key unit : string) (v : value)
| Garbled (text : string).

(** Georeference: CRS identifier and affine transform. *)
Record Georeference : Type := {
  crs : string;
  origin_x : Q;
  origin_y : Q;
  pixel_x : Q;
  pixel_y : Q;
}.

Record raster : Type := {
  r_array : PixelArray;
  r_georef : Georeference;
  r_product : string;
}.

Inductive content : Type :=
| Annotation (lines : list ann_line)
| Binary (bytes : list Byte.byte)
| Raster (r : raster)
| Archive (members : list (string * list Byte.byte)).

Inductive node : Type :=
| Dir
| File (c : content).

Abbreviation filesystem := (gmap string node).

Record World : Type := {
  fs : filesystem;
  log : list string;   (* warnings, oldest first *)
}.

Module os.

(** Paths are identified up to trailing separators, and no further:
    [.], [..], doubled separators and symbolic links are not resolved,
    and a path that names a file is found with a trailing separator
    too (where the system answers ENOTDIR).  The paths the scene
    builds are joins of the work directory, fixed names and the pair
    name. *)
Definition key (p : string) : string :=
  if posixpath.all_sep p
  then match p with EmptyString => EmptyString | _ => "/" end
  else posixpath.rstrip p.

(** [inside d q]: [q] is the directory [d] itself or lies below it *)
Definition inside (d q : string) : bool :=
  String.eqb q d
  || String.prefix (if posixpath.endswith_sep d then d else d +:+ "/") q.

Module path.
Definition exists_ (p : string) (m : filesystem) : bool :=
  bool_decide (is_Some (m !! key p)).
End path.

(** every directory on the way to [p], outermost first, [p] excluded *)
Fixpoint parents (seen p : string) : list string :=
  match p with
  | EmptyString => []
  | String c t =>
      let here := seen +:+ String c EmptyString in
      if Ascii.eqb c posixpath.sep && negb (posixpath.all_sep seen)
      then posixpath.rstrip seen :: parents here t
      else parents here t
  end.

Fixpoint mkdirs (ds : list string) (m : filesystem) : Res filesystem :=
  match ds with
  | [] => Ok m
  | d :: ds' =>
      match m !! d with
      | Some Dir => mkdirs ds' m
      | Some (File _) => Raise (NotADirectoryError d)
      | None => mkdirs ds' (<[d := Dir]> m)
      end
  end.

(** [os.makedirs(p)] with [exist_ok=False] *)
Definition makedirs (p : string) (m : filesystem) : Res filesystem :=
  let k := key p in
  match k with
  | EmptyString => Raise (FileNotFoundError p)
  | _ =>
      match m !! k with
      | Some _ => Raise (FileExistsError p)
      | None =>
          match mkdirs (parents "" k) m with
          | Ok m' => Ok (<[k := Dir]> m')
          | Raise e => Raise e
          end
      end
  end.

(** [os.listdir(p)]: the names in directory [p], in directory order *)
Definition listdir (p : string) (m : filesystem) : Res (list string) :=
  let k := key p in
  match m !! k with
  | Some Dir =>
      Ok (posixpath.basename <$>
            filter (λ q, bool_decide (posixpath.dirname q = k ∧ q ≠ k))
                   (fst <$> map_to_list m))
  | Some (File _) => Raise (NotADirectoryError p)
  | None => Raise (FileNotFoundError p)
  end.

End os.

Module shutil.

(** [shutil.rmtree(p)] *)
Definition rmtree (p : string) (m : filesystem) : Res filesystem :=
  let k := os.key p in
  match m !! k with
  | Some Dir => Ok (filter (λ e, os.inside k e.1 = false) m)
  | Some (File _) => Raise (NotADirectoryError p)
  | None => Raise (FileNotFoundError p)
  end.

End shutil.

(** ** Methods: state and exceptions

    A method runs on the scene object and the world; an exception
    leaves both as they were when it was raised. *)

Definition M (A : Type) : Type :=
  UavsarScene * World → Res A * (UavsarScene * World).

#[global] Instance M_ret : MRet M := λ A a st, (Ok a, st).

#[global] Instance M_bind : MBind M := λ A B k m st,
  match m st with
  | (Ok a, st') => k a st'
  | (Raise e, st') => (Raise e, st')
  end.

Definition raise {A} (e : exn) : M A := λ st, (Raise e, st).

Definition lift {A} (r : Res A) : M A := λ st, (r, st).

Definition get_self : M UavsarScene := λ st, (Ok st.1, st).

Definition get_fs : M filesystem := λ st, (Ok (fs st.2), st).

Definition set_self (f : UavsarScene → UavsarScene) : M unit :=
  λ st, (Ok (), (f st.1, st.2)).

(** a file-system operation: the file system changes only on success *)
Definition sys (op : filesystem → Res filesystem) : M unit := λ st,
  match op (fs st.2) with
  | Ok m => (Ok (), (st.1, {| fs := m; log := log st.2 |}))
  | Raise e => (Raise e, st)
  end.

(** a collaborator working on the world *)
Definition call {A} (c : World → Res A * World) : M A := λ st,
  let '(r, w) := c st.2 in (r, (st.1, w)).

(** [log.warning(msg)] *)
Definition warning (msg : string) : M unit := λ st,
  (Ok (), (st.1, {| fs := fs st.2; log := log st.2 ++ [msg] |})).

(** an expression statement: the value is built and dropped *)
Definition discard {A} (a : A) : M unit := mret ().

(** reading a local variable that may not have been assigned *)
Definition local {A} (name : string) (v : option A) : M A :=
  match v with
  | Some a => mret a
  | None => raise (UnboundLocalError name)
  end.

Definition when (b : bool) (m : M unit) : M unit :=
  if b then m else mret ().

(** attribute assignments *)
Definition set_zipped_fp (v : option string) (s : UavsarScene) : UavsarScene :=
  {| url := url s; pair_name := pair_name s; work_dir := work_dir s;
     clean := clean s; debug := debug s; low_ram := low_ram s;
     zipped_fp := v; ann_fp := ann_fp s; binary_fps := binary_fps s;
     images := images s; tmp_dir := tmp_dir s; pols := pols s;
     out_dir := out_dir s |}.

Definition set_binary_fps (v : list string) (s : UavsarScene) : UavsarScene :=
  {| url := url s; pair_name := pair_name s; work_dir := work_dir s;
     clean := clean s; debug := debug s; low_ram := low_ram s;
     zipped_fp := zipped_fp s; ann_fp := ann_fp s; binary_fps := v;
     images := images s; tmp_dir := tmp_dir s; pols := pols s;
     out_dir := out_dir s |}.

Definition set_images (v : gmap string ConversionResult) (s : UavsarScene)
    : UavsarScene :=
  {| url := url s; pair_name := pair_name s; work_dir := work_dir s;
     clean := clean s; debug := debug s; low_ram := low_ram s;
     zipped_fp := zipped_fp s; ann_fp := ann_fp s; binary_fps := binary_fps s;
     images := v; tmp_dir := tmp_dir s; pols := pols s;
     out_dir := out_dir s |}.

Definition set_tmp_dir (v : option string) (s : UavsarScene) : UavsarScene :=
  {| url := url s; pair_name := pair_name s; work_dir := work_dir s;
     clean := clean s; debug := debug s; low_ram := low_ram s;
     zipped_fp := zipped_fp s; ann_fp := ann_fp s; binary_fps := binary_fps s;
     images := images s; tmp_dir := v; pols := pols s;
     out_dir := out_dir s |}.

Definition set_out_dir (v : option string) (s : UavsarScene) : UavsarScene :=
  {| url := url s; pair_name := pair_name s; work_dir := work_dir s;
     clean := clean s; debug := debug s; low_ram := low_ram s;
     zipped_fp := zipped_fp s; ann_fp := ann_fp s; binary_fps := binary_fps s;
     images := images s; tmp_dir := tmp_dir s; pols := pols s;
     out_dir := v |}.

(** [if not os.path.exists(d): os.makedirs(d)] *)
Definition ensure_dir (d : string) : M unit :=
  m ← get_fs;
  when (negb (os.path.exists_ d m)) (sys (os.makedirs d)).

(** ** The scene's operations *)

Section Scene.
(** The collaborators imported by the module. *)
Variable download_zip : string → string → World → Res string * World.
Variable convert_unzip :
  option string → string → option (list string) → World → Res (list string) * World.
Variable grd_tiff_convert :
  string → string → option string → bool → bool →
  World → Res (AnnotationRecord * PixelArray * string * string) * World.

Definition download (sub_dir : string) (ann : bool) : M unit :=
  self ← get_self;
  let out_dir := posixpath.join (work_dir self) [sub_dir; pair_name self] in
  set_self (set_tmp_dir (Some out_dir));;
  ensure_dir out_dir;;
  ext ← lift (py.final (py.split "." (url self)));
  if String.eqb ext "zip" then
    fp ← call (download_zip (url self) out_dir);
    set_self (set_zipped_fp (Some fp))
  else
    warning "UavsarScene for zip files. Using UavsarImage for single images.".

Definition unzip (in_dir : option string) (sub_dir : string) : M unit :=
  self ← get_self;
  in_dir ← (if negb (py.truthy in_dir) then
              if negb (py.truthy (zipped_fp self)) then
                warning "No known zip file for this scene. Please provide.";;
                mret in_dir
              else mret (zipped_fp self)
            else mret in_dir);
  out_dir ← match tmp_dir self with
            | Some t => mret (posixpath.join t [sub_dir])
            | None => raise TypeError
            end;
  ensure_dir out_dir;;
  fps ← call (convert_unzip in_dir out_dir (pols self));
  set_self (set_binary_fps fps).

(** the annotation file of each polarization that has one *)
Definition build_ann_dic (pols ann_fps : list string) : gmap string string :=
  fold_left (λ dic pol,
               match filter (λ fp, py.contains pol fp = true) ann_fps with
               | a :: _ => <[pol := a]> dic
               | [] => dic
               end) pols ∅.

(** lines 133-137: the annotation file used for the binary file [f];
    [ann_fp] is the local variable, carried from one iteration of the
    loop to the next *)
Definition select_annotation (pols : list string)
    (ann_dic : option (gmap string string)) (ann_fps : option (list string))
    (f : string) (ann_fp : option string) : M (option string) :=
  dic ← local "ann_dic" ann_dic;
  ann_fp ← (if 0 <? size dic then
              f_pol ← lift (py.first
                (filter (λ pol, py.contains pol (posixpath.basename f) = true) pols));
              match dic !! f_pol with
              | Some a => mret (Some a)
              | None => raise (KeyError f_pol)
              end
            else mret ann_fp);
  if negb (py.truthy ann_fp) then
    fps ← local "ann_fps" ann_fps;
    a ← lift (py.first fps);
    mret (Some a)
  else mret ann_fp.

(** the dictionary stored for a converted file *)
Definition conversion_result (low_ram : bool)
    (r : AnnotationRecord * PixelArray * string * string) : ConversionResult :=
  let '(desc, arr, ty, out_fp) := r in
  if low_ram then
    {| description := desc; array := None; out_fp := out_fp; type := ty |}
  else
    {| description := desc; array := Some arr; out_fp := out_fp; type := ty |}.

(** [self.images[type] = ...] *)
Definition store_image (x : ConversionResult) (s : UavsarScene) : UavsarScene :=
  set_images (<[type x := x]> (images s)) s.

(** lines 138-142: convert [f] and record the result *)
Definition convert_file (out_dir f : string) (ann_fp : option string) : M unit :=
  self ← get_self;
  r ← call (grd_tiff_convert f out_dir ann_fp true (debug self));
  set_self (store_image (conversion_result (low_ram self) r)).

(** [for f in binary_img_fps] *)
Fixpoint convert_loop (pols : list string)
    (ann_dic : option (gmap string string)) (ann_fps : option (list string))
    (out_dir : string) (ann_fp : option string) (fps : list string) : M unit :=
  match fps with
  | [] => mret ()
  | f :: rest =>
      ann_fp ← select_annotation pols ann_dic ann_fps f ann_fp;
      convert_file out_dir f ann_fp;;
      convert_loop pols ann_dic ann_fps out_dir ann_fp rest
  end.

(** lines 106-112: the binary files of the scene.  [binary_dir] is
    assigned but not read afterwards; line 110 builds an exception
    object and drops it *)
Definition locate_binaries (binary_dir : option string) : M unit :=
  self ← get_self;
  if negb (py.truthy binary_dir) then
    binary_dir ← (if py.nonempty (binary_fps self) then
                    f ← lift (py.first (binary_fps self));
                    mret (Some (posixpath.dirname f))
                  else mret binary_dir);
    when (negb (py.nonempty (binary_fps self)))
         (discard (Exception "No binary files or directory known"))
  else
    m ← get_fs;
    names ← lift (os.listdir (default "" binary_dir) m);
    set_self (set_binary_fps names).

(** lines 119-128: the annotation files, when none is given; the
    result holds the locals [ann_dic] and [ann_fps], unassigned
    otherwise *)
Definition find_annotations (pols : list string) (ann_fp : option string)
    : M (option (gmap string string) * option (list string)) :=
  self ← get_self;
  if negb (py.truthy ann_fp) then
    let ann_fps := filter (λ a, py.contains ".ann" a = true) (binary_fps self) in
    let ann_dic := build_ann_dic pols ann_fps in
    when (bool_decide (ann_fps = []))
         (warning "No annotation file found for binary files.");;
    mret (Some ann_dic, Some ann_fps)
  else mret (None, None).

(** lines 145-146 *)
Definition cleanup : M unit :=
  self ← get_self;
  when (clean self)
    (match tmp_dir self with
     | Some t => sys (shutil.rmtree (posixpath.dirname t))
     | None => raise TypeError
     end).

Definition binary_to_tiffs (binary_dir ann_fp : option string) : M unit :=
  let pols := ["VV"; "VH"; "HV"; "HH"] in
  locate_binaries binary_dir;;
  self ← get_self;
  let out_dir := posixpath.join (work_dir self) [pair_name self] in
  ensure_dir out_dir;;
  locals ← find_annotations pols ann_fp;
  let binary_img_fps :=
    filter (λ f, py.contains ".ann" f = false) (binary_fps self) in
  convert_loop pols locals.1 locals.2 out_dir ann_fp binary_img_fps;;
  set_self (set_out_dir (Some out_dir));;
  cleanup.

End Scene.

(** ** The remaining operations: [url_to_tiffs] and [show] *)

Section Pipeline.
Variable download_zip : string → string → World → Res string * World.
Variable convert_unzip :
  option string → string → option (list string) → World → Res (list string) * World.
Variable grd_tiff_convert :
  string → string → option string → bool → bool →
  World → Res (AnnotationRecord * PixelArray * string * string) * World.
(** [random.Random._randbelow]: the index drawn for a sequence length *)
Variable randbelow : nat → nat.
(** [pd.DataFrame(description).to_csv(path)] *)
Variable to_csv : AnnotationRecord → string → World → Res unit * World.
(** [array.dtype == np.float64] *)
Variable is_float64 : PixelArray → bool.
(** lines 164-172: quantile scaling and [plt.imshow] of the array (of
    its modulus when the flag is set), title, colour bar, [plt.show] *)
Variable plot : bool → PixelArray → string → World → Res unit * World.

(** [random.choice(seq)] *)
Definition choice {A} (seq : list A) : Res A :=
  match seq with
  | [] => Raise IndexError
  | _ :: _ =>
      match seq !! randbelow (length seq) with
      | Some x => Ok x
      | None => Raise IndexError
      end
  end.

(** [self.out_dir]; the attribute does not exist before
    [binary_to_tiffs] has assigned it (an AttributeError) *)
Definition get_out_dir : M string :=
  self ← get_self;
  match out_dir self with
  | Some o => mret o
  | None => raise (Exception "AttributeError: out_dir")
  end.

Definition url_to_tiffs : M unit :=
  download download_zip "tmp/" true;;
  unzip convert_unzip None "bin_imgs/";;
  binary_to_tiffs grd_tiff_convert None None;;
  self ← get_self;
  x ← lift (choice (map_to_list (images self)).*2);
  out ← get_out_dir;
  call (to_csv (description x)
          (posixpath.join out [pair_name self +:+ ".csv"])).

Definition show (i : string) : M unit :=
  self ← get_self;
  match images self !! i with
  | Some x =>
      arr ← match array x with
            | Some a => mret a
            | None => raise (KeyError "array")
            end;
      call (plot (negb (is_float64 arr)) arr (type x))
  | None => mret ()
  end.

End Pipeline.

(** the attributes fixed at construction *)
Definition same_config (s s' : UavsarScene) : Prop :=
  url s' = url s ∧ pair_name s' = pair_name s ∧ work_dir s' = work_dir s
  ∧ clean s' = clean s ∧ debug s' = debug s ∧ low_ram s' = low_ram s
  ∧ pols s' = pols s.

(** every result is stored under its own product type *)
Definition keyed_by_type (m : gmap string ConversionResult) : Prop :=
  ∀ k x, m !! k = Some x → type x = k.

(** the conversion of each file of [fps] in turn with the one
    annotation file [a] *)
Fixpoint convert_each
    (gtc : string → string → option string → bool → bool →
           World → Res (AnnotationRecord * PixelArray * string * string) * World)
    (out : string) (a : string) (fps : list string) : M unit :=
  match fps with
  | [] => mret ()
  | f :: rest =>
      convert_file gtc out f (Some a);;
      convert_each gtc out a rest
  end.

(** ** The conversion core

    [uavsar_pytools.convert.tiff_conversion] is imported by the scene
    module; its components are described in sections 4.1 to 4.4 of
    the specification. *)

Inductive byte_order : Type := LittleEndian | BigEndian.

Record pixel_format : Type := {
  complex : bool;
  bit_width : nat;   (* of one real component *)
}.

Record ProductDescriptor : Type := {
  pd_product_type : string;
  pd_rows : nat;
  pd_columns : nat;
  pd_byte_order : byte_order;
  pd_pixel_format : pixel_format;
  pd_is_multi_band : bool;
}.

(** Modelled from the spec: the Annotation Parser [parse] (4.1), whose
    code is missing.  Comments and blank lines are ignored, a line that
    cannot be tokenized is a FormatError, a missing file a
    NotFoundError. *)
Fixpoint parse_lines (path : string) (lines : list ann_line)
    (acc : AnnotationRecord) : Res AnnotationRecord :=
  match lines with
  | [] => Ok acc
  | Blank :: rest | Comment _ :: rest => parse_lines path rest acc
  | Entry k u v :: rest => parse_lines path rest (<[k := (v, u)]> acc)
  | Garbled _ :: _ => Raise (FormatError path)
  end.

(** Modelled from the spec: [parse] (4.1) on a path of the file
    system; the parser's code is missing. *)
Definition parse (path : string) (m : filesystem) : Res AnnotationRecord :=
  match m !! os.key path with
  | Some (File (Annotation lines)) => parse_lines path lines ∅
  | Some (File _) => Raise (FormatError path)
  | _ => Raise (NotFoundError path)
  end.

(** Modelled from the spec: a required numeric parameter of a record
    (4.2), absent when the key is missing or holds no number; the
    resolver's code is missing. *)
Definition number (record : AnnotationRecord) (k : string) : Res Q :=
  match record !! k with
  | Some (VFloat q, _) => Ok q
  | Some (VInt n, _) => Ok (inject_Z n)
  | _ => Raise (MissingParameterError k)
  end.

(** Modelled from the spec: the Georeferencing Resolver [resolve]
    (4.2), whose code is missing.  Origin = (starting longitude,
    starting latitude), pixel size = (column spacing, - row spacing);
    MissingParameterError if a required key is absent. *)
Definition resolve (record : AnnotationRecord) : Res Georeference :=
  match number record "rows", number record "columns",
        number record "row_spacing", number record "column_spacing",
        number record "start_lat", number record "start_lon" with
  | Ok _, Ok _, Ok rs, Ok cs, Ok lat, Ok lon =>
      Ok {| crs := "EPSG:4326"; origin_x := lon; origin_y := lat;
            pixel_x := cs; pixel_y := Qopp rs |}
  | Raise e, _, _, _, _, _ | _, Raise e, _, _, _, _ | _, _, Raise e, _, _, _
  | _, _, _, Raise e, _, _ | _, _, _, _, Raise e, _ | _, _, _, _, _, Raise e =>
      Raise e
  end.

(** Modelled from the spec: bytes per pixel (4.3, section 8); a
    complex pixel holds a real and an imaginary component.  The
    reader's code is missing. *)
Definition bytes_per_pixel (f : pixel_format) : nat :=
  (if complex f then 2 else 1) * (bit_width f / 8).

(** [k] consecutive chunks of [n] elements each *)
Fixpoint chunks {A} (n k : nat) (l : list A) : list (list A) :=
  match k with
  | 0 => []
  | S k' => take n l :: chunks n k' (drop n l)
  end.

Section Converter.
(** What the annotation format fixes and the specification leaves
    open: the descriptor of a binary file, the band count of a
    product type, and the name of the raster written for a binary
    file. *)
Variable describe : string → AnnotationRecord → Res ProductDescriptor.
Variable band_count : string → nat.
Variable output_name : string → string.

(** Modelled from the spec: the band count of a product (4.3), one
    unless it is multi-band; the reader's code is missing. *)
Definition bands_of (d : ProductDescriptor) : nat :=
  if pd_is_multi_band d then band_count (pd_product_type d) else 1.

(** Modelled from the spec: the file size a descriptor declares
    (4.3); the reader's code is missing. *)
Definition expected_size (d : ProductDescriptor) : nat :=
  pd_rows d * pd_columns d * bytes_per_pixel (pd_pixel_format d) * bands_of d.

(** Modelled from the spec: the Binary Reader [read] (4.3), whose
    code is missing.  The file size must equal rows × columns ×
    bytes-per-pixel (× band count), else SizeMismatchError; the
    samples are kept as the raw bytes of each pixel, row-major. *)
Definition read (path : string) (d : ProductDescriptor) (m : filesystem)
    : Res PixelArray :=
  match m !! os.key path with
  | Some (File (Binary bytes)) =>
      if length bytes =? expected_size d then
        let px := chunks (bytes_per_pixel (pd_pixel_format d))
                         (pd_rows d * pd_columns d * bands_of d) bytes in
        let lines := chunks (pd_columns d) (pd_rows d * bands_of d) px in
        if pd_is_multi_band d
        then Ok (Array3D (chunks (pd_rows d) (bands_of d) lines))
        else Ok (Array2D lines)
      else Raise (SizeMismatchError path)
  | Some (File _) => Raise (FormatError path)
  | _ => Raise (NotFoundError path)
  end.

(** Modelled from the spec: the Raster Writer [write] (4.4), whose
    code is missing.  An existing output is overwritten only if the
    caller permits it, otherwise FileExistsError; parent directories
    are created if absent. *)
Definition write (arr : PixelArray) (geo : Georeference)
    (output_path product_type : string) (overwrite : bool)
    (m : filesystem) : Res filesystem :=
  if os.path.exists_ output_path m && negb overwrite
  then Raise (FileExistsError output_path)
  else
    let k := os.key output_path in
    match os.mkdirs (os.parents "" k) m with
    | Ok m' =>
        Ok (<[k := File (Raster {| r_array := arr; r_georef := geo;
                                   r_product := product_type |})]> m')
    | Raise e => Raise e
    end.

(** Modelled from the spec: [grd_tiff_convert], whose code is
    missing: Annotation Parser → Georeferencing Resolver → Binary
    Reader → Raster Writer (section 2); an error aborts the
    conversion of the file and nothing is written. *)
Definition grd_tiff_convert (in_fp out_dir : string) (ann_fp : option string)
    (overwrite debug : bool) (w : World)
    : Res (AnnotationRecord * PixelArray * string * string) * World :=
  match ann_fp with
  | None => (Raise (NotFoundError ""), w)
  | Some a =>
      match parse a (fs w) with
      | Raise e => (Raise e, w)
      | Ok record =>
      match describe in_fp record with
      | Raise e => (Raise e, w)
      | Ok d =>
      match resolve record with
      | Raise e => (Raise e, w)
      | Ok geo =>
      match read in_fp d (fs w) with
      | Raise e => (Raise e, w)
      | Ok arr =>
      let out_fp := posixpath.join out_dir [output_name in_fp] in
      match write arr geo out_fp (pd_product_type d) overwrite (fs w) with
      | Raise e => (Raise e, w)
      | Ok m' =>
          (Ok (record, arr, pd_product_type d, out_fp),
           {| fs := m'; log := log w |})
      end end end end end
  end.

End Converter.

(** ** A concrete instance of the format-dependent parts

    Product type = the extension before the last one, as in the
    product names [unw], [int], [cor], [hgt], [slope] that [show]
    lists; interferograms are complex, everything else is real;
    32-bit little-endian samples; one band. *)

Definition example_product_type (f : string) : string :=
  match reverse (py.split "." (posixpath.basename f)) with
  | _ :: t :: _ => t
  | _ => ""
  end.

Definition example_dimension (record : AnnotationRecord) (k : string) : Res nat :=
  match record !! k with
  | Some (VInt n, _) => Ok (Z.to_nat n)
  | _ => Raise (MissingParameterError k)
  end.

Definition example_describe (f : string) (record : AnnotationRecord)
    : Res ProductDescriptor :=
  match example_dimension record "rows", example_dimension record "columns" with
  | Ok r, Ok c =>
      Ok {| pd_product_type := example_product_type f;
            pd_rows := r; pd_columns := c;
            pd_byte_order := LittleEndian;
            pd_pixel_format :=
              {| complex := String.eqb (example_product_type f) "int";
                 bit_width := 32 |};
            pd_is_multi_band := false |}
  | Raise e, _ | _, Raise e => Raise e
  end.

Definition example_band_count (product_type : string) : nat := 1.

Definition example_output_name (f : string) : string :=
  posixpath.basename f +:+ ".tiff".

Definition example_convert :=
  grd_tiff_convert example_describe example_band_count example_output_name.

(** the annotation of a 1 × 2 scene *)
Definition example_ann : content :=
  Annotation [Comment "; UAVSAR annotation"; Blank;
              Entry "rows" "pixels" (VInt 1);
              Entry "columns" "pixels" (VInt 2);
              Entry "row_spacing" "deg" (VFloat (1 # 10000));
              Entry "column_spacing" "deg" (VFloat (1 # 10000));
              Entry "start_lat" "deg" (VFloat 36);
              Entry "start_lon" "deg" (VFloat (-119))].

(** a real-valued 1 × 2 product (8 bytes) and a complex one (16 bytes) *)
Definition example_grd : content := Binary (repeat Byte.x00 8).

Definition example_int : content := Binary (repeat Byte.x00 16).

Definition example_scene (url work_dir : string) (clean low_ram : bool)
    : UavsarScene :=
  match __init__ id url work_dir clean false None low_ram with
  | Ok s => s
  | Raise _ =>
      {| url := url; pair_name := ""; work_dir := work_dir; clean := clean;
         debug := false; low_ram := low_ram; zipped_fp := None;
         ann_fp := None; binary_fps := []; images := ∅; tmp_dir := None;
         pols := None; out_dir := None |}
  end.

(** the record of the georeferencing scenario *)
Definition scenario_record : AnnotationRecord :=
  <["rows" := (VInt 4, "pixels")]> (
  <["columns" := (VInt 3, "pixels")]> (
  <["row_spacing" := (VFloat (1 # 10000), "deg")]> (
  <["column_spacing" := (VFloat (1 # 10000), "deg")]> (
  <["start_lat" := (VFloat 36, "deg")]> (
  <["start_lon" := (VFloat (-119), "deg")]> ∅))))).

(** the descriptor of the size scenario: a complex product of 4 × 3
    pixels, 4-byte real and 4-byte imaginary part *)
Definition scenario_descriptor : ProductDescriptor :=
  {| pd_product_type := "int"; pd_rows := 4; pd_columns := 3;
     pd_byte_order := LittleEndian;
     pd_pixel_format := {| complex := true; bit_width := 32 |};
     pd_is_multi_band := false |}.

Definition scenario_file (size : nat) : filesystem :=
  {["/data/pair_HH_01.int.grd" := File (Binary (repeat Byte.x00 size))]}.

(** ** Concrete scenes

    A work directory [/w]; a scene as [download] and [unzip] leave it:
    [tmp_dir] is [/w/tmp/<pair>], the extracted files lie in
    [/w/tmp/<pair>/bin_imgs]. *)

Definition bin_dir (pair : string) : string :=
  "/w/tmp/" +:+ pair +:+ "/bin_imgs".

Definition unzipped_fs (pair : string) (files : list (string * content))
    (m : filesystem) : filesystem :=
  foldr (λ nc m', <[bin_dir pair +:+ "/" +:+ nc.1 := File nc.2]> m')
    (<[bin_dir pair := Dir]> (<["/w/tmp/" +:+ pair := Dir]>
       (<["/w/tmp" := Dir]> (<["/w" := Dir]> m))))
    files.

Definition unzipped_scene (pair : string) (clean low_ram : bool)
    (names : list string) : UavsarScene :=
  set_binary_fps ((λ n, bin_dir pair +:+ "/" +:+ n) <$> names)
    (set_tmp_dir (Some ("/w/tmp/" +:+ pair))
       (example_scene ("https://host/" +:+ pair +:+ ".zip") "/w" clean low_ram)).

Definition world_of (m : filesystem) : World := {| fs := m; log := [] |}.

(** a scene with two polarizations of the correlation product *)
Definition lowman_files : list (string * content) :=
  [("lowman_HH_01.ann", example_ann); ("lowman_HH_01.cor.grd", example_grd);
   ("lowman_VV_01.ann", example_ann); ("lowman_VV_01.cor.grd", example_grd)].

(** the same scene without the annotation file of VV *)
Definition lowman_files_no_vv_ann : list (string * content) :=
  [("lowman_HH_01.ann", example_ann); ("lowman_HH_01.cor.grd", example_grd);
   ("lowman_VV_01.cor.grd", example_grd)].

(** a second scene in the same work directory *)
Definition alamos_files : list (string * content) :=
  [("alamos_HH_01.ann", example_ann); ("alamos_HH_01.int.grd", example_int)].

(** ** Notions used in the statements *)

(** [converted gtc out s f x]: [x] is the dictionary stored for a
    successful conversion of the binary file [f] *)
Definition converted gtc (out : string) (s : UavsarScene) (f : string)
    (x : ConversionResult) : Prop :=
  ∃ (a : option string) (w w' : World) y,
    gtc f out a true (debug s) w = (Ok y, w')
    ∧ x = conversion_result (low_ram s) y.

(** the dictionary after [self.images[type] = x] for each [x] in turn *)
Definition stored (xs : list ConversionResult)
    (m : gmap string ConversionResult) : gmap string ConversionResult :=
  fold_left (λ m' x, <[type x := x]> m') xs m.

Ltac bind_case :=
  match goal with
  | |- context [match ?X with pair _ _ => _ end] =>
      destruct X as [[?|?] ?] eqn:?
  end.

(** the same scene, listed with the VV product first and without the
    annotation file of VV *)
Definition lowman_files_vv_first : list (string * content) :=
  [("lowman_VV_01.cor.grd", example_grd);
   ("lowman_HH_01.ann", example_ann); ("lowman_HH_01.cor.grd", example_grd)].

Definition lowman_scene (clean low_ram : bool) : UavsarScene :=
  unzipped_scene "lowman" clean low_ram lowman_files.*1.

Definition lowman_world : World :=
  world_of (unzipped_fs "lowman" lowman_files ∅).

Definition lowman_run (clean low_ram : bool) : Res () * (UavsarScene * World) :=
  binary_to_tiffs example_convert None None
    (lowman_scene clean low_ram, lowman_world).

(** both scenes unzipped in the work directory *)
Definition shared_world : World :=
  world_of (unzipped_fs "alamos" alamos_files
              (unzipped_fs "lowman" lowman_files ∅)).

(** a scene right after construction, and the work directory *)
Definition new_scene (clean : bool) : UavsarScene :=
  example_scene "https://host/lowman.zip" "/w" clean false.

Definition empty_world : World := world_of {["/w" := Dir]}.

Definition lowman_no_vv_scene : UavsarScene :=
  unzipped_scene "lowman" false false lowman_files_no_vv_ann.*1.

Definition lowman_no_vv_world : World :=
  world_of (unzipped_fs "lowman" lowman_files_no_vv_ann ∅).

Definition lowman_vv_first_scene : UavsarScene :=
  unzipped_scene "lowman" false false lowman_files_vv_first.*1.

Definition lowman_vv_first_world : World :=
  world_of (unzipped_fs "lowman" lowman_files_vv_first ∅).

(** an output raster left by an earlier conversion, and a new one *)
Definition example_geo : Georeference :=
  {| crs := "EPSG:4326"; origin_x := -119; origin_y := 36;
     pixel_x := 1 # 10000; pixel_y := -1 # 10000 |}.

Definition old_raster : raster :=
  {| r_array := Array2D [[[Byte.x00]]]; r_georef := example_geo;
     r_product := "cor" |}.

Definition new_array : PixelArray := Array2D [[[Byte.x01]]].

Definition output_exists : filesystem :=
  <["/w/lowman/lowman_HH_01.cor.grd.tiff" := File (Raster old_raster)]>
    (<["/w/lowman" := Dir]> {["/w" := Dir]}).

Definition alamos_scene (clean : bool) : UavsarScene :=
  unzipped_scene "alamos" clean false alamos_files.*1.

(** ** Concrete collaborators

    A downloader that stores the archive under the URL's base name, an
    unzipper that extracts the members of an archive as binary files,
    a CSV writer and a plotter that leave the world alone, and a
    random source that always draws index 0. *)

Definition example_download_zip (url out : string) (w : World)
    : Res string * World :=
  let fp := posixpath.join out [posixpath.basename url] in
  (Ok fp, {| fs := <[os.key fp := File (Archive [])]> (fs w); log := log w |}).

Definition example_unzip (in_dir : option string) (out : string)
    (pols : option (list string)) (w : World) : Res (list string) * World :=
  match in_dir with
  | Some z =>
      match fs w !! os.key z with
      | Some (File (Archive members)) =>
          (Ok ((λ m, posixpath.join out [m.1]) <$> members),
           {| fs := foldr (λ m acc,
                     <[os.key (posixpath.join out [m.1]) := File (Binary m.2)]> acc)
                     (fs w) members;
              log := log w |})
      | _ => (Raise (NotFoundError z), w)
      end
  | None => (Raise TypeError, w)
  end.

Definition example_to_csv (desc : AnnotationRecord) (path : string) (w : World)
    : Res unit * World := (Ok (), w).

Definition example_plot (modulus : bool) (arr : PixelArray) (title : string)
    (w : World) : Res unit * World := (Ok (), w).

Definition example_randbelow (n : nat) : nat := 0.

Definition example_is_float64 (arr : PixelArray) : bool := true.

(** a scene whose archive held one binary file and no annotation file *)
Definition bare_files : list (string * content) :=
  [("lowman_HH_01.cor.grd", example_grd)].

Definition bare_scene : UavsarScene :=
  unzipped_scene "lowman" false false bare_files.*1.

Definition bare_world : World := world_of (unzipped_fs "lowman" bare_files ∅).

(** a scene whose file names carry no polarization *)
Definition plain_files : list (string * content) :=
  [("lowman.ann", example_ann); ("lowman_01.cor.grd", example_grd);
   ("lowman_01.hgt.grd", example_grd)].

Definition plain_scene : UavsarScene :=
  unzipped_scene "lowman" false false plain_files.*1.

Definition plain_world : World := world_of (unzipped_fs "lowman" plain_files ∅).

(** [os.path.expanduser] on a host with HOME=/home/user and no other
    user: [~] and [~/...] expand to the home directory, [~name] with a
    null byte in [name] raises ValueError (from [pwd.getpwnam]), any
    other path is returned as it is *)
Definition example_expanduser (d : string) : Res string :=
  match d with
  | String "~" rest =>
      match py.split "/" rest with
      | "" :: _ => Ok ("/home/user" +:+ rest)
      | name :: _ =>
          if py.contains (String Ascii.zero "") name
          then Raise (ValueError "embedded null byte")
          else Ok d
      | [] => Ok d
      end
  | _ => Ok d
  end.

(** a scene where one binary file carries no polarization in its name *)
Definition mixed_files : list (string * content) :=
  [("lowman_HH_01.ann", example_ann); ("lowman_HH_01.cor.grd", example_grd);
   ("lowman_01.hgt.grd", example_grd)].

Definition mixed_scene : UavsarScene :=
  unzipped_scene "lowman" false false mixed_files.*1.

Definition mixed_world : World := world_of (unzipped_fs "lowman" mixed_files ∅).

(** * Sanity checks of the model *)

Example basename_url :
  posixpath.basename "https://host/dir/pair_HH_01.zip" = "pair_HH_01.zip".
Proof. reflexivity. Qed.

Example dirname_tmp :
  posixpath.dirname "/work/tmp/pair" = "/work/tmp"
  ∧ posixpath.dirname "/work//" = "/work"
  ∧ posixpath.dirname "/pair" = "/"
  ∧ posixpath.dirname "pair" = "".
Proof. repeat split. Qed.

Example join_tmp :
  posixpath.join "/work" ["tmp/"; "pair"] = "/work/tmp/pair"
  ∧ posixpath.join "/work" ["/abs"] = "/abs"
  ∧ posixpath.join "" ["pair"] = "pair".
Proof. repeat split. Qed.

Example split_dot :
  py.split "." "pair_HH_01.int.grd" = ["pair_HH_01"; "int"; "grd"]
  ∧ py.split "." "" = [""]
  ∧ py.split "." "a." = ["a"; ""].
Proof. repeat split. Qed.

Example init_lower :
  pols <$> (match __init__ id "http://h/p_1.zip" "/w" true false (Some ["hh"; "Vv"]) false with
            | Ok s => Some s | Raise _ => None end) = Some (Some ["HH"; "VV"]).
Proof. vm_compute. reflexivity. Qed.

Example makedirs_nested :
  os.makedirs "/work/tmp/pair/" ∅
  = Ok (<["/work/tmp/pair" := Dir]> (<["/work/tmp" := Dir]> (<["/work" := Dir]> ∅))).
Proof. vm_compute. reflexivity. Qed.

Example rmtree_subtree :
  shutil.rmtree "/w/tmp"
    (<["/w/tmp/a/x" := File (Binary [])]> (<["/w/tmp" := Dir]>
       (<["/w/tmpx" := Dir]> (<["/w" := Dir]> ∅))))
  = Ok (<["/w/tmpx" := Dir]> (<["/w" := Dir]> ∅)).
Proof. vm_compute. reflexivity. Qed.

(** * The constructor: the polarization filter *)

Lemma split_cons sep s : ∃ h r, py.split sep s = h :: r.
Proof.
  induction s as [|c t [h [r IH]]]; simpl; [by eauto|].
  destruct (Ascii.eqb c sep); [by eauto|]. rewrite IH. by eauto.
Qed.

Lemma issubset_Forall ps valid :
  issubset ps valid = true ↔ Forall (λ p, p ∈ valid) ps.
Proof.
  unfold issubset. rewrite bool_decide_eq_true, Forall_forall.
  set_unfold. naive_solver.
Qed.

Lemma upper_valid p : p ∈ valid_pols → py.upper p = p.
Proof.
  unfold valid_pols. rewrite !elem_of_cons, elem_of_nil.
  intros [->|[->|[->|[->|[]]]]]; reflexivity.
Qed.

Lemma not_valid_lower : "vv" ∉ valid_pols.
Proof.
  unfold valid_pols. rewrite !elem_of_cons, elem_of_nil.
  intros [?|[?|[?|[?|[]]]]]; discriminate.
Qed.

Lemma init_accepts (expanduser : string → string) (url work_dir : string)
    (clean debug low_ram : bool) (ps : list string) :
  Forall (λ p, py.upper p ∈ valid_pols) ps →
  ∃ s, __init__ expanduser url work_dir clean debug (Some ps) low_ram = Ok s
       ∧ pols s = Some (py.upper <$> ps).
Proof.
  intros Hall. unfold __init__.
  destruct (split_cons "." (posixpath.basename url)) as (h & r & ->).
  cbn [py.first].
  destruct ps as [|p ps']; [by eauto|].
  assert (issubset (map py.upper (p :: ps')) valid_pols = true) as ->.
  { apply issubset_Forall. by apply (Forall_fmap py.upper). }
  by eauto.
Qed.






(** * The georeferencing resolver *)

(** C9 (as amended).  A record with the required keys resolves to
    origin (starting longitude, starting latitude) and pixel size
    (column spacing, - row spacing); when both spacings are positive
    the x pixel size is positive and the y pixel size negative. *)
Theorem resolve_transform (record : AnnotationRecord) (r c rs cs lat lon : Q) :
  number record "rows" = Ok r →
  number record "columns" = Ok c →
  number record "row_spacing" = Ok rs →
  number record "column_spacing" = Ok cs →
  number record "start_lat" = Ok lat →
  number record "start_lon" = Ok lon →
  ∃ geo, resolve record = Ok geo
         ∧ (origin_x geo, origin_y geo) = (lon, lat)
         ∧ (pixel_x geo, pixel_y geo) = (cs, Qopp rs)
         ∧ ((0 < cs)%Q → (0 < rs)%Q → (0 < pixel_x geo)%Q ∧ (pixel_y geo < 0)%Q).
Proof.
  intros Hr Hc Hrs Hcs Hlat Hlon. unfold resolve.
  rewrite Hr, Hc, Hrs, Hcs, Hlat, Hlon.
  eexists. split; [reflexivity|]. cbn [origin_x origin_y pixel_x pixel_y].
  repeat split; [done|].
  by apply (Qopp_lt_compat 0 rs).
Qed.

(** The scenario of the specification. *)
Lemma resolve_transform_witness :
  ∃ geo, resolve scenario_record = Ok geo
         ∧ (origin_x geo, origin_y geo) = ((-119)%Q, 36%Q)
         ∧ (pixel_x geo, pixel_y geo) = ((1 # 10000)%Q, (-1 # 10000)%Q)
         ∧ ((0 < 1 # 10000)%Q → (0 < 1 # 10000)%Q →
            (0 < pixel_x geo)%Q ∧ (pixel_y geo < 0)%Q).
Proof.
  apply (resolve_transform scenario_record 4 3 (1 # 10000) (1 # 10000)
           36 (-119)); vm_compute; reflexivity.
Defined.

(** C9 as stated fails: a record that has every required key, with a
    negative row spacing, resolves to a positive y pixel size. *)
Lemma resolve_negative_row_spacing :
  ∃ geo, resolve (<["row_spacing" := (VFloat (-1 # 10000), "deg")]>
                    scenario_record) = Ok geo
         ∧ pixel_y geo = (1 # 10000)%Q
         ∧ ¬ (pixel_y geo < 0)%Q.
Proof.
  eexists. split; [vm_compute; reflexivity|].
  split; [reflexivity|]. by vm_compute.
Qed.

(** * The binary reader *)

Lemma chunks_length {A} n k (l : list A) : length (chunks n k l) = k.
Proof. revert l. induction k as [|k IH]; intros l; simpl; [done|]. by rewrite IH. Qed.

Lemma chunks_width {A} n k (l : list A) :
  length l = n * k → Forall (λ c, length c = n) (chunks n k l).
Proof.
  revert l. induction k as [|k IH]; intros l Hl; simpl; [constructor|].
  constructor.
  - rewrite length_take. lia.
  - apply IH. rewrite length_drop. lia.
Qed.

Lemma chunks_Forall {A} (P : A → Prop) n k (l : list A) :
  Forall P l → Forall (Forall P) (chunks n k l).
Proof.
  revert l. induction k as [|k IH]; intros l Hl; simpl; constructor.
  - by apply Forall_take.
  - by apply IH, Forall_drop.
Qed.

(** the pixel lines of a file of the expected size *)
Lemma read_lines band_count (d : ProductDescriptor) (bytes : list Byte.byte) :
  length bytes = expected_size band_count d →
  let lines :=
    chunks (pd_columns d) (pd_rows d * bands_of band_count d)
      (chunks (bytes_per_pixel (pd_pixel_format d))
         (pd_rows d * pd_columns d * bands_of band_count d) bytes) in
  length lines = pd_rows d * bands_of band_count d
  ∧ Forall (λ row, length row = pd_columns d) lines.
Proof.
  intros Hsz lines. split; [apply chunks_length|].
  apply chunks_width. rewrite chunks_length. lia.
Qed.

(** C8.  A binary file whose size differs from rows × columns ×
    bytes-per-pixel × band count is refused with SizeMismatchError,
    and a conversion that meets it leaves the world as it was; a file
    of the right size is read into an array of shape (rows, columns),
    or (bands, rows, columns) for a multi-band product. *)
Theorem read_size_check (band_count : string → nat) (path : string)
    (d : ProductDescriptor) (m : filesystem) (bytes : list Byte.byte) :
  m !! os.key path = Some (File (Binary bytes)) →
  (length bytes ≠ expected_size band_count d →
   read band_count path d m = Raise (SizeMismatchError path)
   ∧ ∀ describe output_name out_dir ann record geo overwrite debug lg,
       parse ann m = Ok record →
       describe path record = Ok d →
       resolve record = Ok geo →
       grd_tiff_convert describe band_count output_name path out_dir
         (Some ann) overwrite debug {| fs := m; log := lg |}
       = (Raise (SizeMismatchError path), {| fs := m; log := lg |}))
  ∧ (length bytes = expected_size band_count d →
     if pd_is_multi_band d then
       ∃ bands, read band_count path d m = Ok (Array3D bands)
         ∧ length bands = band_count (pd_product_type d)
         ∧ Forall (λ band, length band = pd_rows d
                     ∧ Forall (λ row, length row = pd_columns d) band) bands
     else
       ∃ rows, read band_count path d m = Ok (Array2D rows)
         ∧ length rows = pd_rows d
         ∧ Forall (λ row, length row = pd_columns d) rows).
Proof.
  intros Hfile. split.
  - intros Hne.
    assert (read band_count path d m = Raise (SizeMismatchError path)) as Hread.
    { unfold read. rewrite Hfile.
      by destruct (Nat.eqb_spec (length bytes) (expected_size band_count d)). }
    split; [done|].
    intros describe output_name out_dir ann record geo ov dbg lg Hp Hd Hg.
    unfold grd_tiff_convert; cbn [fs]. by rewrite Hp, Hd, Hg, Hread.
  - intros Hsz. unfold read. rewrite Hfile.
    rewrite (proj2 (Nat.eqb_eq _ _) Hsz).
    destruct (read_lines band_count d bytes Hsz) as [Hlen Hrows].
    destruct (pd_is_multi_band d) eqn:Hmb.
    + eexists. split; [reflexivity|].
      assert (bands_of band_count d = band_count (pd_product_type d)) as Hb
        by (unfold bands_of; by rewrite Hmb).
      split; [by rewrite chunks_length|].
      apply Forall_and. split.
      * apply chunks_width. rewrite Hlen. lia.
      * by apply chunks_Forall.
    + eexists. split; [reflexivity|].
      assert (bands_of band_count d = 1) as Hb
        by (unfold bands_of; by rewrite Hmb).
      rewrite Hb in *. split; [lia|done].
Qed.

(** The size scenario: 4 × 3 complex pixels of 8 bytes need exactly 96
    bytes; a file of 90 bytes is refused, one of 96 bytes is read. *)
Lemma read_size_check_witness :
  read example_band_count "/data/pair_HH_01.int.grd" scenario_descriptor
    (scenario_file 90)
  = Raise (SizeMismatchError "/data/pair_HH_01.int.grd")
  ∧ ∃ rows, read example_band_count "/data/pair_HH_01.int.grd"
              scenario_descriptor (scenario_file 96) = Ok (Array2D rows)
      ∧ length rows = 4
      ∧ Forall (λ row, length row = 3) rows.
Proof.
  split.
  - apply (read_size_check example_band_count "/data/pair_HH_01.int.grd"
             scenario_descriptor (scenario_file 90) (repeat Byte.x00 90)).
    + reflexivity.
    + vm_compute. lia.
  - apply (read_size_check example_band_count "/data/pair_HH_01.int.grd"
             scenario_descriptor (scenario_file 96) (repeat Byte.x00 96)).
    + reflexivity.
    + reflexivity.
Defined.

(** * The raster writer *)

Lemma mkdirs_lookup ds (m m' : filesystem) p n :
  os.mkdirs ds m = Ok m' → m !! p = Some n → m' !! p = Some n.
Proof.
  revert m. induction ds as [|d ds IH]; intros m Hmk Hp; simpl in Hmk.
  - by simplify_eq.
  - destruct (m !! d) as [[|c]|] eqn:Hd; [by eapply IH|done|].
    eapply IH; [exact Hmk|].
    rewrite lookup_insert_ne; [done|]. intros ->. congruence.
Qed.

Lemma makedirs_lookup d (m m' : filesystem) p n :
  os.makedirs d m = Ok m' → m !! p = Some n → m' !! p = Some n.
Proof.
  unfold os.makedirs. intros Hmk Hp.
  destruct (os.key d) as [|c k] eqn:Hk; [done|].
  destruct (m !! String c k) eqn:Hd; [done|].
  destruct (os.mkdirs _ m) as [m1|e] eqn:Hm1; [|done].
  inversion Hmk; subst. rewrite lookup_insert_ne.
  - by eapply mkdirs_lookup.
  - intros Heq. rewrite <- Heq in Hp. congruence.
Qed.

Lemma write_lookup arr geo out ty ov (m m' : filesystem) :
  write arr geo out ty ov m = Ok m' →
  m' !! os.key out
  = Some (File (Raster {| r_array := arr; r_georef := geo; r_product := ty |}))
  ∧ ∀ p n, m !! p = Some n → p ≠ os.key out → m' !! p = Some n.
Proof.
  unfold write. intros Hw.
  destruct (os.path.exists_ out m && negb ov); [done|].
  destruct (os.mkdirs _ m) as [m1|e] eqn:Hm1; [|done].
  inversion Hw; subst. split; [by rewrite lookup_insert_eq|].
  intros p n Hp Hne. rewrite lookup_insert_ne by done.
  by eapply mkdirs_lookup.
Qed.

(** the loop does not depend on what the converter does when
    overwriting is not permitted: line 138 always passes [True] *)
Lemma convert_loop_overwrite gtc pols dic ann_fps out a fps st :
  convert_loop gtc pols dic ann_fps out a fps st
  = convert_loop (λ f o a' _ d, gtc f o a' true d) pols dic ann_fps out a fps st.
Proof.
  revert a st. induction fps as [|f rest IH]; intros a st; [done|].
  cbn [convert_loop]. unfold mbind, M_bind.
  destruct (select_annotation pols dic ann_fps f a st) as [[a1|e] st1]; [|done].
  change (convert_file (λ f o a' _ d, gtc f o a' true d) out f a1 st1)
    with (convert_file gtc out f a1 st1).
  destruct (convert_file gtc out f a1 st1) as [[[]|e] st2]; [|done].
  apply IH.
Qed.

Lemma binary_to_tiffs_overwrite gtc binary_dir ann_fp st :
  binary_to_tiffs gtc binary_dir ann_fp st
  = binary_to_tiffs (λ f o a' _ d, gtc f o a' true d) binary_dir ann_fp st.
Proof.
  unfold binary_to_tiffs, mbind, M_bind.
  repeat (bind_case; [|done]).
  by rewrite <- convert_loop_overwrite.
Qed.

(** C3.  When the output raster exists and overwriting is not
    permitted, the writer fails with FileExistsError (and, returning no
    file system, overwrites nothing); a write over an existing output
    succeeds only with the permission, and then the output holds the
    new raster.  The scene gives that permission itself on line 138. *)
Theorem write_overwrite_policy (arr : PixelArray) (geo : Georeference)
    (out ty : string) (overwrite : bool) (m : filesystem) :
  os.path.exists_ out m = true →
  (overwrite = false →
   write arr geo out ty overwrite m = Raise (FileExistsError out))
  ∧ (∀ m', write arr geo out ty overwrite m = Ok m' →
       overwrite = true
       ∧ m' !! os.key out
         = Some (File (Raster {| r_array := arr; r_georef := geo;
                                 r_product := ty |})))
  ∧ (∀ gtc binary_dir ann_fp st,
       binary_to_tiffs gtc binary_dir ann_fp st
       = binary_to_tiffs (λ f o a _ d, gtc f o a true d) binary_dir ann_fp st).
Proof.
  intros Hex. split; [|split].
  - intros ->. unfold write. by rewrite Hex.
  - intros m' Hw. split; [|exact (proj1 (write_lookup _ _ _ _ _ _ _ Hw))].
    unfold write in Hw. rewrite Hex in Hw. by destruct overwrite.
  - apply binary_to_tiffs_overwrite.
Qed.

(** * The conversion loop *)

Lemma set_images_id s : set_images (images s) s = s.
Proof. by destruct s. Qed.

Lemma select_annotation_state pols dic ann_fps f a st r st' :
  select_annotation pols dic ann_fps f a st = (r, st') → st' = st.
Proof.
  unfold select_annotation, mbind, M_bind, local, lift, raise, mret, M_ret.
  destruct dic as [d|]; [|by intros [= _ <-]].
  destruct (0 <? size d).
  - destruct (py.first _) as [p|e]; [|by intros [= _ <-]].
    destruct (d !! p) as [x|]; [|by intros [= _ <-]].
    destruct (negb (py.truthy (Some x))); [|by intros [= _ <-]].
    destruct ann_fps as [l|]; [|by intros [= _ <-]].
    destruct (py.first l); by intros [= _ <-].
  - destruct (negb (py.truthy a)); [|by intros [= _ <-]].
    destruct ann_fps as [l|]; [|by intros [= _ <-]].
    destruct (py.first l); by intros [= _ <-].
Qed.

Lemma convert_file_inv gtc out f a st r st' :
  convert_file gtc out f a st = (r, st') →
  (∃ e, r = Raise e ∧ st'.1 = st.1
        ∧ gtc f out a true (debug st.1) st.2 = (Raise e, st'.2))
  ∨ (∃ y, r = Ok ()
          ∧ gtc f out a true (debug st.1) st.2 = (Ok y, st'.2)
          ∧ st'.1 = store_image (conversion_result (low_ram st.1) y) st.1).
Proof.
  unfold convert_file, mbind, M_bind, get_self, call, set_self.
  destruct (gtc f out a true (debug st.1) st.2) as [[y|e] w'];
    intros [= <- <-]; [right|left]; eauto.
Qed.

Lemma convert_loop_inv gtc pols dic ann_fps out a fps st r st' :
  convert_loop gtc pols dic ann_fps out a fps st = (r, st') →
  ∃ xs, st'.1 = set_images (stored xs (images st.1)) st.1
        ∧ Forall2 (converted gtc out st.1) (take (length xs) fps) xs
        ∧ (r = Ok () → length xs = length fps).
Proof.
  revert a st. induction fps as [|f rest IH]; intros a st Hrun.
  - injection Hrun as <- <-. exists [].
    split; [symmetry; apply set_images_id|]. split; [constructor|done].
  - cbn [convert_loop] in Hrun. unfold mbind, M_bind in Hrun.
    destruct (select_annotation pols dic ann_fps f a st) as [[a1|e] st1] eqn:Hsel;
      apply select_annotation_state in Hsel as ->.
    2:{ injection Hrun as <- <-. exists [].
        split; [symmetry; apply set_images_id|]. split; [constructor|done]. }
    destruct (convert_file gtc out f a1 st) as [[[]|e] st2] eqn:Hcf;
      apply convert_file_inv in Hcf as [(e' & He & Hs & Hg)|(y & He & Hg & Hs)];
      try discriminate.
    + apply IH in Hrun as (xs & Hst & Hall & Hlen).
      exists (conversion_result (low_ram st.1) y :: xs).
      rewrite Hs in Hst, Hall. split; [exact Hst|]. split.
      * cbn [length take]. constructor; [|exact Hall].
        by exists a1, st.2, st2.2, y.
      * intros Hr. cbn [length]. by rewrite Hlen.
    + injection Hrun as <- <-. exists []. rewrite Hs.
      split; [symmetry; apply set_images_id|]. split; [constructor|done].
Qed.

(** * The stages of [binary_to_tiffs] *)

Lemma set_binary_fps_id s : set_binary_fps (binary_fps s) s = s.
Proof. by destruct s. Qed.

Lemma locate_binaries_inv bd s w r st' :
  locate_binaries bd (s, w) = (r, st') →
  st'.2 = w
  ∧ st'.1 = set_binary_fps (binary_fps st'.1) s
  ∧ (py.truthy bd = false → r = Ok () ∧ st'.1 = s).
Proof.
  unfold locate_binaries, mbind, M_bind, get_self, get_fs, lift, set_self,
    when, discard, mret, M_ret. cbn [fst snd].
  destruct (py.truthy bd); cbn [negb].
  - destruct (os.listdir _ _) as [names|e]; intros [= <- <-]; cbn [fst snd];
      (split; [done|]); (split; [|done]);
      [done|by rewrite set_binary_fps_id].
  - destruct (binary_fps s) as [|f l] eqn:Hb; cbn [py.nonempty py.first negb];
      intros [= <- <-]; cbn [fst snd]; by rewrite set_binary_fps_id.
Qed.

Lemma ensure_dir_inv d s w r st' :
  ensure_dir d (s, w) = (r, st') →
  st'.1 = s ∧ log st'.2 = log w
  ∧ (∀ p n, fs w !! p = Some n → fs st'.2 !! p = Some n)
  ∧ (os.path.exists_ d (fs w) = true → r = Ok () ∧ st'.2 = w).
Proof.
  unfold ensure_dir, mbind, M_bind, get_fs, when, sys, mret, M_ret.
  cbn [fst snd].
  destruct (os.path.exists_ d (fs w)); cbn [negb fst snd].
  - intros [= <- <-]. by destruct w.
  - destruct (os.makedirs d (fs w)) as [m|e] eqn:Hmk; intros [= <- <-];
      cbn [fst snd fs log]; repeat split; try done.
    intros p n Hp. by eapply makedirs_lookup.
Qed.

Lemma find_annotations_inv pols af st r st' :
  find_annotations pols af st = (r, st') →
  st'.1 = st.1 ∧ fs st'.2 = fs st.2
  ∧ ∃ locals, r = Ok locals
      ∧ (py.truthy af = false →
         locals = (Some (build_ann_dic pols
                     (filter (λ a, py.contains ".ann" a = true) (binary_fps st.1))),
                   Some (filter (λ a, py.contains ".ann" a = true)
                           (binary_fps st.1)))).
Proof.
  unfold find_annotations, mbind, M_bind, get_self, when, warning, mret, M_ret.
  destruct (py.truthy af); cbn [negb].
  - intros [= <- <-]. repeat split. eexists. split; [reflexivity|done].
  - destruct (bool_decide _); intros [= <- <-]; cbn [fst snd fs];
      repeat split; eexists; split; reflexivity || done.
Qed.

Lemma cleanup_inv st r st' :
  cleanup st = (r, st') →
  st'.1 = st.1 ∧ log st'.2 = log st.2
  ∧ (clean st.1 = false → r = Ok () ∧ st' = st)
  ∧ (∀ p n, fs st.2 !! p = Some n →
       (∀ t, clean st.1 = true → tmp_dir st.1 = Some t →
             os.inside (os.key (posixpath.dirname t)) p = false) →
       fs st'.2 !! p = Some n).
Proof.
  unfold cleanup, mbind, M_bind, get_self, when, sys, raise, mret, M_ret.
  destruct (clean st.1); [|by intros [= <- <-]].
  destruct (tmp_dir st.1) as [t|]; [|by intros [= <- <-]].
  unfold shutil.rmtree.
  destruct (fs st.2 !! os.key (posixpath.dirname t)) as [[|c]|];
    intros [= <- <-]; cbn [fst snd fs log]; repeat split; try done.
  intros p n Hp Hout. apply map_lookup_filter_Some. split; [done|].
  by apply Hout.
Qed.

Lemma binary_to_tiffs_inv gtc bd af s w r s' w' :
  binary_to_tiffs gtc bd af (s, w) = (r, (s', w')) →
  ∃ xs, images s' = stored xs (images s)
        ∧ low_ram s' = low_ram s
        ∧ Forall2 (converted gtc (posixpath.join (work_dir s) [pair_name s]) s)
            (take (length xs)
               (filter (λ f, py.contains ".ann" f = false) (binary_fps s')))
            xs
        ∧ (r = Ok () →
           length xs
           = length (filter (λ f, py.contains ".ann" f = false) (binary_fps s'))).
Proof.
  unfold binary_to_tiffs, mbind, M_bind. intros Hrun.
  destruct (locate_binaries bd (s, w)) as [[[]|e] [s1 w1]] eqn:Hloc;
    apply locate_binaries_inv in Hloc as (Hw1 & Hs1 & _); cbn [fst snd] in *.
  2:{ injection Hrun as <- <- <-. exists []. rewrite Hs1.
      repeat split; [constructor|done]. }
  cbn [get_self fst snd] in Hrun.
  replace (work_dir s1) with (work_dir s) in * by (by rewrite Hs1).
  replace (pair_name s1) with (pair_name s) in * by (by rewrite Hs1).
  set (out := posixpath.join (work_dir s) [pair_name s]) in *.
  destruct (ensure_dir out (s1, w1)) as [[[]|e] [s2 w2]] eqn:Hens;
    apply ensure_dir_inv in Hens as (Hs2 & _); cbn [fst snd] in *; subst s2.
  2:{ injection Hrun as <- <- <-. exists []. rewrite Hs1.
      repeat split; [constructor|done]. }
  destruct (find_annotations _ af (s1, w2)) as [[locals|e] [s3 w3]] eqn:Hfa;
    apply find_annotations_inv in Hfa as (Hs3 & _ & (? & [= ->] & _));
    cbn [fst snd] in *; subst s3.
  destruct (convert_loop gtc _ _ _ out af _ (s1, w3)) as [[[]|e] [s4 w4]] eqn:Hloop;
    apply convert_loop_inv in Hloop as (xs & Hs4 & Hall & Hlen);
    cbn [fst snd] in *.
  2:{ injection Hrun as <- <- <-. exists xs. rewrite Hs4, Hs1.
      repeat split; [|done]. by rewrite Hs1 in Hall. }
  cbn [set_self fst snd] in Hrun.
  destruct (cleanup _) as [r5 [s5 w5]] eqn:Hcl;
    apply cleanup_inv in Hcl as (Hs5 & _); cbn [fst snd] in *.
  injection Hrun as <- <- <-. exists xs. rewrite Hs5, Hs4, Hs1.
  cbn. split; [done|]. split; [done|]. split.
  - by rewrite Hs1 in Hall.
  - intros _. by apply Hlen.
Qed.

(** * The result mapping *)

Lemma stored_snoc xs x m : stored (xs ++ [x]) m = <[type x := x]> (stored xs m).
Proof. unfold stored. by rewrite fold_left_app. Qed.

Lemma stored_lookup xs m k x :
  stored xs m !! k = Some x → (x ∈ xs ∧ type x = k) ∨ m !! k = Some x.
Proof.
  revert x. induction xs as [|y xs IH] using rev_ind; intros x; [by right|].
  rewrite stored_snoc.
  destruct (decide (type y = k)) as [<-|Hne].
  - rewrite lookup_insert_eq. intros [= ->]. left. split; [|done].
    apply elem_of_app. right. by apply list_elem_of_singleton.
  - rewrite lookup_insert_ne by done. intros [[Hin Ht]|Hm]%IH; [left|by right].
    split; [|done]. apply elem_of_app. by left.
Qed.

Lemma stored_dom xs m :
  dom (stored xs m) = list_to_set (type <$> xs) ∪ dom m.
Proof.
  induction xs as [|y xs IH] using rev_ind.
  - cbn. set_solver.
  - rewrite stored_snoc, dom_insert_L, IH, fmap_app, list_to_set_app_L.
    cbn. set_solver.
Qed.

(** the result stored for a product type is that of the last file of
    that type *)
Lemma stored_last xs1 x xs2 m :
  type x ∉ type <$> xs2 → stored (xs1 ++ x :: xs2) m !! type x = Some x.
Proof.
  induction xs2 as [|y xs2 IH] using rev_ind; intros Hnot.
  - by rewrite stored_snoc, lookup_insert_eq.
  - rewrite fmap_app, not_elem_of_app in Hnot. destruct Hnot as [Hnot Hy].
    replace (xs1 ++ x :: xs2 ++ [y]) with ((xs1 ++ x :: xs2) ++ [y])
      by (by rewrite <- app_assoc).
    rewrite stored_snoc, lookup_insert_ne; [by apply IH|].
    intros Heq. apply Hy. cbn. rewrite Heq. by apply list_elem_of_singleton.
Qed.

Lemma size_list_to_set_le (l : list string) :
  size (list_to_set l : gset string) ≤ length l
  ∧ (size (list_to_set l : gset string) = length l ↔ NoDup l).
Proof.
  induction l as [|a l [IHle IHeq]].
  - cbn. rewrite size_empty. split; [lia|]. split; [constructor|done].
  - rewrite list_to_set_cons. cbn [length].
    destruct (decide (a ∈ l)) as [Hin|Hnin].
    + rewrite subseteq_union_1_L by set_solver. split; [lia|].
      split; [lia|]. intros Hnd. apply NoDup_cons in Hnd as [? _]. done.
    + rewrite size_union by set_solver. rewrite size_singleton.
      split; [lia|]. rewrite NoDup_cons. split.
      * intros Hsz. split; [done|]. apply IHeq. lia.
      * intros [_ Hnd]. apply IHeq in Hnd. lia.
Qed.

Lemma conversion_result_array lr y :
  array (conversion_result lr y) = None ↔ lr = true.
Proof. destruct y as [[[desc arr] ty] out], lr; cbn; split; done. Qed.

(** C6.  In low-memory mode every result stored by the conversion
    omits the pixel array, otherwise every result includes it, and the
    array it includes is the one the converter returned for a binary
    file of the scene, stored with the description, output path and
    product type of the same conversion.  The property holds of the
    mapping after [binary_to_tiffs], however it ends, if it held
    before (as it does of the empty mapping of a new scene). *)
Theorem low_ram_policy gtc (bd af : option string) (s : UavsarScene) (w : World) :
  (∀ k x, images s !! k = Some x → (array x = None ↔ low_ram s = true)) →
  ∀ k x, images (binary_to_tiffs gtc bd af (s, w)).2.1 !! k = Some x →
    (array x = None ↔ low_ram s = true)
    ∧ (images s !! k = Some x
       ∨ ∃ f a w1 w2 desc arr out,
           f ∈ filter (λ g, py.contains ".ann" g = false)
                 (binary_fps (binary_to_tiffs gtc bd af (s, w)).2.1)
           ∧ gtc f (posixpath.join (work_dir s) [pair_name s]) a true (debug s) w1
             = (Ok (desc, arr, k, out), w2)
           ∧ x = {| description := desc;
                    array := if low_ram s then None else Some arr;
                    out_fp := out; type := k |}).
Proof.
  intros Hinv k x.
  destruct (binary_to_tiffs gtc bd af (s, w)) as [r [s' w']] eqn:Hrun.
  apply binary_to_tiffs_inv in Hrun as (xs & Him & _ & Hall & _).
  cbn [fst snd]. rewrite Him. intros [[Hin Hk]|Hold]%stored_lookup.
  - apply list_elem_of_lookup in Hin as [i Hi].
    destruct (Forall2_lookup_r _ _ _ _ _ Hall Hi)
      as (f & Hf & (a & w1 & w2 & [[[desc arr] ty] out] & Hg & ->)).
    assert (ty = k) as ->.
    { unfold conversion_result in Hk. by destruct (low_ram s). }
    split.
    + unfold conversion_result. destruct (low_ram s); cbn; split; done.
    + right. exists f, a, w1, w2, desc, arr, out. split; [|split].
      * apply lookup_take_Some in Hf as [Hf _].
        by apply list_elem_of_lookup_2 in Hf.
      * exact Hg.
      * unfold conversion_result. by destruct (low_ram s).
  - split; [by eapply Hinv|by left].
Qed.

(** C5 (as amended).  After a successful conversion of a new scene the
    mapping is what storing one result per binary file, each under its
    product type, leaves: its keys are the product types of the
    results, the result found under a type is that of the last file of
    that type, and it holds as many results as there are binary files
    exactly when their product types are pairwise distinct. *)
Theorem images_keyed_by_type gtc (bd af : option string) (s : UavsarScene)
    (w : World) :
  let run := binary_to_tiffs gtc bd af (s, w) in
  let fps := filter (λ f, py.contains ".ann" f = false) (binary_fps run.2.1) in
  run.1 = Ok () →
  images s = ∅ →
  ∃ xs,
    Forall2 (converted gtc (posixpath.join (work_dir s) [pair_name s]) s) fps xs
    ∧ images run.2.1 = stored xs ∅
    ∧ dom (images run.2.1) = list_to_set (type <$> xs)
    ∧ (∀ xs1 x xs2, xs = xs1 ++ x :: xs2 → type x ∉ type <$> xs2 →
         images run.2.1 !! type x = Some x)
    ∧ size (images run.2.1) ≤ length fps
    ∧ (size (images run.2.1) = length fps ↔ NoDup (type <$> xs)).
Proof.
  intros run fps Hok Hempty. subst run fps.
  destruct (binary_to_tiffs gtc bd af (s, w)) as [r [s' w']] eqn:Hrun.
  cbn [fst snd] in *. subst r.
  apply binary_to_tiffs_inv in Hrun as (xs & Him & _ & Hall & Hlen).
  specialize (Hlen eq_refl). rewrite Hempty in Him.
  rewrite Hlen, firstn_all in Hall.
  exists xs. split; [exact Hall|].
  split; [done|].
  assert (dom (images s') = list_to_set (type <$> xs)) as Hdom.
  { rewrite Him, stored_dom, dom_empty_L. set_solver. }
  split; [done|]. split.
  { intros xs1 x xs2 -> Hnot. rewrite Him. by apply stored_last. }
  rewrite <- size_dom, Hdom, <- Hlen, <- (length_fmap type xs).
  apply size_list_to_set_le.
Qed.

Lemma low_ram_policy_witness :
  (∃ x, images (binary_to_tiffs example_convert None None
                  (lowman_scene false true, lowman_world)).2.1 !! "cor" = Some x
        ∧ array x = None)
  ∧ (∃ x arr, images (binary_to_tiffs example_convert None None
                        (lowman_scene false false, lowman_world)).2.1 !! "cor"
              = Some x
          ∧ array x = Some arr
          ∧ ∃ f a w1 w2 desc out,
              example_convert f "/w/lowman" a true false w1
              = (Ok (desc, arr, "cor", out), w2)).
Proof.
  split.
  - destruct (images (binary_to_tiffs example_convert None None
                        (lowman_scene false true, lowman_world)).2.1 !! "cor")
      as [x|] eqn:Hx; [|by vm_compute in Hx].
    exists x. split; [reflexivity|].
    apply (low_ram_policy example_convert None None
             (lowman_scene false true) lowman_world) in Hx.
    + by apply Hx.
    + intros k y Hy. by vm_compute in Hy.
  - destruct (images (binary_to_tiffs example_convert None None
                        (lowman_scene false false, lowman_world)).2.1 !! "cor")
      as [x|] eqn:Hx; [|by vm_compute in Hx].
    apply (low_ram_policy example_convert None None
             (lowman_scene false false) lowman_world) in Hx.
    + destruct Hx as [_ [Hold|(f & a & w1 & w2 & desc & arr & out & _ & Hg & ->)]].
      * by vm_compute in Hold.
      * eexists _, arr. split; [reflexivity|]. split; [reflexivity|].
        by exists f, a, w1, w2, desc, out.
    + intros k y Hy. by vm_compute in Hy.
Defined.

Lemma images_keyed_by_type_witness :
  ∃ xs,
    Forall2 (converted example_convert
               (posixpath.join (work_dir (lowman_scene false false))
                  [pair_name (lowman_scene false false)])
               (lowman_scene false false))
      (filter (λ f, py.contains ".ann" f = false)
         (binary_fps (binary_to_tiffs example_convert None None
                        (lowman_scene false false, lowman_world)).2.1)) xs
    ∧ images (binary_to_tiffs example_convert None None
                (lowman_scene false false, lowman_world)).2.1 = stored xs ∅
    ∧ dom (images (binary_to_tiffs example_convert None None
                     (lowman_scene false false, lowman_world)).2.1)
      = list_to_set (type <$> xs)
    ∧ (∀ xs1 x xs2, xs = xs1 ++ x :: xs2 → type x ∉ type <$> xs2 →
         images (binary_to_tiffs example_convert None None
                   (lowman_scene false false, lowman_world)).2.1 !! type x
         = Some x)
    ∧ size (images (binary_to_tiffs example_convert None None
                      (lowman_scene false false, lowman_world)).2.1)
      ≤ length (filter (λ f, py.contains ".ann" f = false)
                  (binary_fps (binary_to_tiffs example_convert None None
                                 (lowman_scene false false, lowman_world)).2.1))
    ∧ (size (images (binary_to_tiffs example_convert None None
                       (lowman_scene false false, lowman_world)).2.1)
       = length (filter (λ f, py.contains ".ann" f = false)
                   (binary_fps (binary_to_tiffs example_convert None None
                                  (lowman_scene false false, lowman_world)).2.1))
       ↔ NoDup (type <$> xs)).
Proof.
  apply (images_keyed_by_type example_convert None None
           (lowman_scene false false) lowman_world);
    vm_compute; reflexivity.
Defined.

(** C5 as stated fails: the scene has two binary files, both of
    product type [cor]; the conversion succeeds and the mapping holds
    one result. *)
Lemma images_same_type_collide :
  (lowman_run false false).1 = Ok ()
  ∧ filter (λ f, py.contains ".ann" f = false)
      (binary_fps (lowman_run false false).2.1)
    = ["/w/tmp/lowman/bin_imgs/lowman_HH_01.cor.grd";
       "/w/tmp/lowman/bin_imgs/lowman_VV_01.cor.grd"]
  ∧ size (images (lowman_run false false).2.1) = 1
  ∧ out_fp <$> images (lowman_run false false).2.1 !! "cor"
    = Some "/w/lowman/lowman_VV_01.cor.grd.tiff".
Proof. vm_compute. repeat split. Qed.

(** * Conversion before unzipping *)

Lemma convert_before_unzip gtc (s : UavsarScene) (w : World) m' :
  binary_fps s = [] →
  clean s = false →
  os.path.exists_ (posixpath.join (work_dir s) [pair_name s]) (fs w) = false →
  os.makedirs (posixpath.join (work_dir s) [pair_name s]) (fs w) = Ok m' →
  binary_to_tiffs gtc None None (s, w)
  = (Ok (),
     (set_out_dir (Some (posixpath.join (work_dir s) [pair_name s])) s,
      {| fs := m';
         log := log w ++ ["No annotation file found for binary files."] |})).
Proof.
  intros Hb Hc Hex Hmk.
  unfold binary_to_tiffs, locate_binaries, ensure_dir, find_annotations,
    cleanup, mbind, M_bind, get_self, get_fs, set_self, when, sys, warning,
    discard, lift, mret, M_ret.
  cbn [py.truthy negb fst snd]. rewrite Hb. cbn [py.nonempty negb fst snd].
  rewrite Hex. cbn [negb fst snd]. rewrite Hmk. cbn [fst snd fs log].
  rewrite Hb. cbn. by rewrite Hc.
Qed.

(** C1 (the code departs from it).  A new scene, no binary file list
    recorded: [binary_to_tiffs()] raises no precondition error.  With
    [clean=False] it returns normally, having created the output
    directory and logged a warning; with [clean=True] it creates the
    directory as well and then fails with TypeError in the cleanup. *)
Theorem convert_before_unzip_runs :
  binary_fps (new_scene false) = []
  ∧ binary_to_tiffs example_convert None None (new_scene false, empty_world)
    = (Ok (),
       (set_out_dir (Some "/w/lowman") (new_scene false),
        {| fs := <["/w/lowman" := Dir]> {["/w" := Dir]};
           log := ["No annotation file found for binary files."] |}))
  ∧ (binary_to_tiffs example_convert None None (new_scene true, empty_world)).1
    = Raise TypeError
  ∧ fs (binary_to_tiffs example_convert None None
          (new_scene true, empty_world)).2.2 !! "/w/lowman" = Some Dir.
Proof.
  split; [reflexivity|]. split.
  - by rewrite (convert_before_unzip example_convert (new_scene false)
                  empty_world (<["/w/lowman" := Dir]> {["/w" := Dir]})).
  - vm_compute. by split.
Qed.

(** * A polarization without annotation file *)

Lemma build_ann_dic_nil pols : build_ann_dic pols [] = ∅.
Proof.
  unfold build_ann_dic. generalize (∅ : gmap string string).
  induction pols as [|p pols IH]; intros acc; [done|]. cbn. apply IH.
Qed.

Lemma select_annotation_dic pols dic ann_fps f a a' st :
  0 < size dic →
  select_annotation pols (Some dic) ann_fps f a st
  = select_annotation pols (Some dic) ann_fps f a' st.
Proof.
  intros Hsz. unfold select_annotation, mbind, M_bind, local, mret, M_ret.
  by rewrite (proj2 (Nat.ltb_lt _ _) Hsz).
Qed.

Lemma select_annotation_missing pols dic ann_fps f a p st :
  0 < size dic →
  py.first (filter (λ pol, py.contains pol (posixpath.basename f) = true) pols)
  = Ok p →
  dic !! p = None →
  select_annotation pols (Some dic) ann_fps f a st = (Raise (KeyError p), st).
Proof.
  intros Hsz Hp Hnone.
  unfold select_annotation, mbind, M_bind, local, lift, raise, mret, M_ret.
  by rewrite (proj2 (Nat.ltb_lt _ _) Hsz), Hp, Hnone.
Qed.

Lemma convert_loop_app gtc pols dic ann_fps out a a' l1 l2 st :
  0 < size dic →
  convert_loop gtc pols (Some dic) ann_fps out a (l1 ++ l2) st
  = match convert_loop gtc pols (Some dic) ann_fps out a l1 st with
    | (Ok _, st1) => convert_loop gtc pols (Some dic) ann_fps out a' l2 st1
    | (Raise e, st1) => (Raise e, st1)
    end.
Proof.
  intros Hsz. revert a st. induction l1 as [|f l1 IH]; intros a st.
  - cbn [app convert_loop mret M_ret]. destruct l2 as [|g l2]; [done|].
    cbn [convert_loop]. unfold mbind, M_bind.
    by rewrite (select_annotation_dic pols dic ann_fps g a a').
  - cbn [app convert_loop]. unfold mbind, M_bind.
    destruct (select_annotation _ _ _ f a st) as [[a1|e] st1]; [|done].
    destruct (convert_file gtc out f a1 st1) as [[[]|e] st2]; [|done].
    apply IH.
Qed.

Lemma build_ann_dic_snoc pols q fps :
  build_ann_dic (pols ++ [q]) fps
  = match filter (λ fp, py.contains q fp = true) fps with
    | a :: _ => <[q := a]> (build_ann_dic pols fps)
    | [] => build_ann_dic pols fps
    end.
Proof. unfold build_ann_dic. by rewrite fold_left_app. Qed.

(** a polarization that no annotation path contains has no entry *)
Lemma build_ann_dic_absent pols fps p :
  Forall (λ a, py.contains p a = false) fps →
  build_ann_dic pols fps !! p = None.
Proof.
  intros Hall. induction pols as [|q pols IH] using rev_ind; [done|].
  rewrite build_ann_dic_snoc.
  destruct (filter (λ fp, py.contains q fp = true) fps) as [|a l] eqn:Hf; [done|].
  destruct (decide (q = p)) as [->|Hne]; [|by rewrite lookup_insert_ne].
  assert (a ∈ filter (λ fp, py.contains p fp = true) fps) as Ha
    by (rewrite Hf; apply list_elem_of_here).
  apply list_elem_of_filter in Ha as [Hc Hin].
  rewrite Forall_forall in Hall. by rewrite (Hall a Hin) in Hc.
Qed.

(** a polarization that some annotation path contains has an entry *)
Lemma build_ann_dic_present pols fps pol a :
  pol ∈ pols → a ∈ fps → py.contains pol a = true →
  is_Some (build_ann_dic pols fps !! pol).
Proof.
  intros Hpol Ha Hc. induction pols as [|q pols IH] using rev_ind.
  - by apply elem_of_nil in Hpol.
  - rewrite build_ann_dic_snoc. destruct (decide (q = pol)) as [->|Hne].
    + destruct (filter (λ fp, py.contains pol fp = true) fps) as [|b l] eqn:Hf.
      * assert (a ∈ filter (λ fp, py.contains pol fp = true) fps) as Hin
          by (by apply list_elem_of_filter).
        rewrite Hf in Hin. by apply elem_of_nil in Hin.
      * rewrite lookup_insert_eq. by eauto.
    + apply elem_of_app in Hpol as [Hpol|Hpol].
      * destruct (filter (λ fp, py.contains q fp = true) fps);
          [by apply IH|rewrite lookup_insert_ne by done; by apply IH].
      * apply list_elem_of_singleton in Hpol. congruence.
Qed.

Lemma build_ann_dic_nonempty pols fps :
  Exists (λ a, Exists (λ pol, py.contains pol a = true) pols) fps →
  0 < size (build_ann_dic pols fps).
Proof.
  intros (a & Ha & (pol & Hpol & Hc)%Exists_exists)%Exists_exists.
  destruct (build_ann_dic_present pols fps pol a Hpol Ha Hc) as [x Hx].
  destruct (size (build_ann_dic pols fps)) eqn:Hsz; [|lia].
  apply map_size_empty_inv in Hsz. rewrite Hsz in Hx.
  by rewrite lookup_empty in Hx.
Qed.

(** a binary file at which the choice of the annotation file raises
    [e] ends the run: with the error of the output directory if it
    cannot be made, else with the error of the first file before it
    whose conversion fails, else with [e] *)
Lemma binary_to_tiffs_stops_at gtc (s : UavsarScene) (w : World)
    (pre post : list string) (f : string) (e : exn) :
  let pols := ["VV"; "VH"; "HV"; "HH"] in
  let ann_fps := filter (λ a, py.contains ".ann" a = true) (binary_fps s) in
  let dic := build_ann_dic pols ann_fps in
  let out := posixpath.join (work_dir s) [pair_name s] in
  filter (λ g, py.contains ".ann" g = false) (binary_fps s) = pre ++ f :: post →
  0 < size dic →
  (∀ st, select_annotation pols (Some dic) (Some ann_fps) f None st
         = (Raise e, st)) →
  binary_to_tiffs gtc None None (s, w)
  = match ensure_dir out (s, w) with
    | (Ok _, st0) =>
        match convert_loop gtc pols (Some dic) (Some ann_fps) out None pre st0 with
        | (Ok _, st1) => (Raise e, st1)
        | (Raise e', st1) => (Raise e', st1)
        end
    | (Raise e', st0) => (Raise e', st0)
    end.
Proof.
  intros pols ann_fps dic out Hfps Hsz Hsel.
  unfold binary_to_tiffs, mbind, M_bind.
  destruct (locate_binaries None (s, w)) as [r1 [s1 w1]] eqn:Hloc.
  apply locate_binaries_inv in Hloc as (Hw & _ & Hs); cbn [fst snd] in *.
  destruct (Hs eq_refl) as [-> ->]. subst w1. cbn [get_self fst snd].
  change (posixpath.join (work_dir s) [pair_name s]) with out.
  destruct (ensure_dir out (s, w)) as [[[]|e0] [s0 w0]] eqn:Hens; [|done].
  apply ensure_dir_inv in Hens as (Hs0 & _); cbn [fst] in Hs0; subst s0.
  change ["VV"; "VH"; "HV"; "HH"] with pols.
  assert (find_annotations pols None (s, w0)
          = (Ok (Some dic, Some ann_fps), (s, w0))) as ->.
  { unfold find_annotations, mbind, M_bind, get_self, when, mret, M_ret.
    cbn [py.truthy negb fst]. fold ann_fps. fold dic.
    destruct ann_fps as [|a l] eqn:Ha; [|done].
    subst dic. rewrite build_ann_dic_nil, map_size_empty in Hsz. lia. }
  cbn [fst snd]. rewrite Hfps.
  rewrite (convert_loop_app gtc pols dic (Some ann_fps) out None None pre
             (f :: post) (s, w0) Hsz).
  destruct (convert_loop gtc pols (Some dic) (Some ann_fps) out None pre (s, w0))
    as [[[]|e1] st1] eqn:Hpre; [|done].
  cbn [convert_loop]. unfold mbind, M_bind. by rewrite Hsel.
Qed.

Lemma select_annotation_unnamed pols dic ann_fps f a st :
  0 < size dic →
  Forall (λ pol, py.contains pol (posixpath.basename f) = false) pols →
  select_annotation pols (Some dic) ann_fps f a st = (Raise IndexError, st).
Proof.
  intros Hsz Hp.
  unfold select_annotation, mbind, M_bind, local, lift, mret, M_ret.
  rewrite (proj2 (Nat.ltb_lt _ _) Hsz).
  assert (filter (λ pol, py.contains pol (posixpath.basename f) = true) pols = [])
    as ->; [|done].
  clear -Hp. induction Hp as [|p l Hp _ IH]; [done|].
  rewrite filter_cons, decide_False by (by rewrite Hp). exact IH.
Qed.

(** C2 (as amended).  [binary_to_tiffs] called with its default
    arguments on a scene with a binary file [f] such that the
    polarization [p] of [f], the first of VV, VH, HV, HH occurring in
    its base name, occurs in no annotation file path, while some
    annotation file path contains a polarization name.  The call never
    completes and skips nothing: it ends with the error of
    [os.makedirs] if the output directory is missing and cannot be
    made; else with the error of the first binary file listed before
    [f] that fails, in the choice of its annotation file or in its
    conversion, in the state reached there; else, the files before
    [f] converted, it stops at [f] with KeyError for [p]
    in the state those conversions left: nothing is logged for [f],
    and neither [f] nor a file after it is converted. *)
Theorem missing_annotation_aborts gtc (s : UavsarScene) (w : World)
    (pre post : list string) (f p : string) :
  let pols := ["VV"; "VH"; "HV"; "HH"] in
  let ann_fps := filter (λ a, py.contains ".ann" a = true) (binary_fps s) in
  let dic := build_ann_dic pols ann_fps in
  let out := posixpath.join (work_dir s) [pair_name s] in
  filter (λ g, py.contains ".ann" g = false) (binary_fps s) = pre ++ f :: post →
  Exists (λ a, Exists (λ pol, py.contains pol a = true) pols) ann_fps →
  py.first (filter (λ pol, py.contains pol (posixpath.basename f) = true) pols)
  = Ok p →
  Forall (λ a, py.contains p a = false) ann_fps →
  (∃ e, (binary_to_tiffs gtc None None (s, w)).1 = Raise e)
  ∧ binary_to_tiffs gtc None None (s, w)
    = match ensure_dir out (s, w) with
      | (Ok _, st0) =>
          match convert_loop gtc pols (Some dic) (Some ann_fps) out None pre st0
          with
          | (Ok _, st1) => (Raise (KeyError p), st1)
          | (Raise e, st1) => (Raise e, st1)
          end
      | (Raise e, st0) => (Raise e, st0)
      end.
Proof.
  intros pols ann_fps dic out Hfps Hex Hp Hnone.
  assert (0 < size dic) as Hsz by (by apply build_ann_dic_nonempty).
  rewrite (binary_to_tiffs_stops_at gtc s w pre post f (KeyError p) Hfps Hsz).
  - fold pols ann_fps dic out. split; [|done].
    destruct (ensure_dir out (s, w)) as [[[]|e0] st0]; [|by eauto].
    destruct (convert_loop gtc pols (Some dic) (Some ann_fps) out None pre st0)
      as [[[]|e1] st1]; by eauto.
  - intros st. apply select_annotation_missing; [done|done|].
    by apply build_ann_dic_absent.
Qed.

Lemma missing_annotation_aborts_witness :
  binary_to_tiffs example_convert None None
    (lowman_no_vv_scene, lowman_no_vv_world)
  = (Raise (KeyError "VV"),
     (convert_loop example_convert ["VV"; "VH"; "HV"; "HH"]
        (Some (build_ann_dic ["VV"; "VH"; "HV"; "HH"]
                 ["/w/tmp/lowman/bin_imgs/lowman_HH_01.ann"]))
        (Some ["/w/tmp/lowman/bin_imgs/lowman_HH_01.ann"])
        "/w/lowman" None ["/w/tmp/lowman/bin_imgs/lowman_HH_01.cor.grd"]
        (ensure_dir "/w/lowman" (lowman_no_vv_scene, lowman_no_vv_world)).2).2)
  ∧ out_fp <$> images (binary_to_tiffs example_convert None None
                         (lowman_no_vv_scene, lowman_no_vv_world)).2.1 !! "cor"
    = Some "/w/lowman/lowman_HH_01.cor.grd.tiff"
  ∧ log (binary_to_tiffs example_convert None None
           (lowman_no_vv_scene, lowman_no_vv_world)).2.2 = [].
Proof.
  destruct (missing_annotation_aborts example_convert
              lowman_no_vv_scene lowman_no_vv_world
              ["/w/tmp/lowman/bin_imgs/lowman_HH_01.cor.grd"] []
              "/w/tmp/lowman/bin_imgs/lowman_VV_01.cor.grd" "VV")
    as [_ Hstop].
  - reflexivity.
  - apply Exists_cons_hd, Exists_cons_tl, Exists_cons_tl, Exists_cons_tl,
      Exists_cons_hd. reflexivity.
  - reflexivity.
  - repeat constructor.
  - split; [rewrite Hstop|split]; vm_compute; reflexivity.
Defined.

(** C2 as stated fails: HH has an annotation file, VV has none.  The
    conversion raises KeyError at the VV file; it logs nothing, stores
    no result and writes no raster, not even for HH. *)
Lemma missing_annotation_no_skip :
  binary_to_tiffs example_convert None None
    (lowman_vv_first_scene, lowman_vv_first_world)
  = (Raise (KeyError "VV"),
     (lowman_vv_first_scene,
      {| fs := <["/w/lowman" := Dir]> (fs lowman_vv_first_world);
         log := [] |})).
Proof. vm_compute. reflexivity. Qed.

Lemma write_overwrite_policy_witness :
  write new_array example_geo "/w/lowman/lowman_HH_01.cor.grd.tiff" "cor"
    false output_exists
  = Raise (FileExistsError "/w/lowman/lowman_HH_01.cor.grd.tiff")
  ∧ ∃ m', write new_array example_geo "/w/lowman/lowman_HH_01.cor.grd.tiff"
            "cor" true output_exists = Ok m'
      ∧ m' !! "/w/lowman/lowman_HH_01.cor.grd.tiff"
        = Some (File (Raster {| r_array := new_array; r_georef := example_geo;
                                r_product := "cor" |})).
Proof.
  split.
  - apply (write_overwrite_policy new_array example_geo
             "/w/lowman/lowman_HH_01.cor.grd.tiff" "cor" false output_exists);
      reflexivity.
  - destruct (write new_array example_geo "/w/lowman/lowman_HH_01.cor.grd.tiff"
                "cor" true output_exists) as [m'|e] eqn:Hw;
      [|by vm_compute in Hw].
    exists m'. split; [reflexivity|].
    apply (write_overwrite_policy new_array example_geo
             "/w/lowman/lowman_HH_01.cor.grd.tiff" "cor" true output_exists);
      [reflexivity|exact Hw].
Defined.

(** * What a conversion changes on disk *)

Section Frame.
Variable describe : string → AnnotationRecord → Res ProductDescriptor.
Variable band_count : string → nat.
Variable output_name : string → string.

Local Abbreviation gtc := (grd_tiff_convert describe band_count output_name).

Lemma grd_tiff_convert_frame f out a ov dbg (w : World) r w' p n :
  gtc f out a ov dbg w = (r, w') →
  fs w !! p = Some n →
  p ≠ os.key (posixpath.join out [output_name f]) →
  fs w' !! p = Some n.
Proof.
  unfold gtc, grd_tiff_convert. intros Hrun Hp Hne.
  destruct a as [a|]; [|by injection Hrun as <- <-].
  destruct (parse a (fs w)); [|by injection Hrun as <- <-].
  destruct (describe f _); [|by injection Hrun as <- <-].
  destruct (resolve _); [|by injection Hrun as <- <-].
  destruct (read _ _ _ _); [|by injection Hrun as <- <-].
  destruct (write _ _ _ _ _ _) as [m'|e] eqn:Hw; injection Hrun as <- <-;
    [|done].
  cbn [fs]. by apply (write_lookup _ _ _ _ _ _ _ Hw).
Qed.

Lemma convert_loop_frame pols dic ann_fps out a fps st r st' p n :
  convert_loop gtc pols dic ann_fps out a fps st = (r, st') →
  fs st.2 !! p = Some n →
  Forall (λ f, p ≠ os.key (posixpath.join out [output_name f])) fps →
  fs st'.2 !! p = Some n.
Proof.
  revert a st. induction fps as [|f rest IH]; intros a st Hrun Hp Hall.
  - by injection Hrun as <- <-.
  - apply Forall_cons in Hall as [Hf Hrest].
    cbn [convert_loop] in Hrun. unfold mbind, M_bind in Hrun.
    destruct (select_annotation pols dic ann_fps f a st) as [[a1|e] st1] eqn:Hsel;
      apply select_annotation_state in Hsel as ->;
      [|by injection Hrun as <- <-].
    destruct (convert_file gtc out f a1 st) as [r2 st2] eqn:Hcf.
    assert (fs st2.2 !! p = Some n) as Hp2.
    { apply convert_file_inv in Hcf as [(e & _ & _ & Hg)|(y & _ & Hg & _)];
        by eapply grd_tiff_convert_frame. }
    destruct r2 as [[]|e]; [by eapply IH|by injection Hrun as <- <-].
Qed.


End Frame.



(** * Further properties of the constructor *)

Lemma contains_char_cons (ch c : ascii) (t : string) :
  py.contains (String ch "") (String c t) = false
  ↔ ch ≠ c ∧ py.contains (String ch "") t = false.
Proof.
  cbn [py.contains String.prefix].
  destruct (ascii_dec ch c) as [->|Hne].
  - destruct t; cbn; split; try done; by intros [[] _].
  - cbn. split; [by intros ->|by intros [_ ->]].
Qed.

Lemma eqb_neq_char (c d : ascii) : Ascii.eqb c d = false → d ≠ c.
Proof. intros H ->. by rewrite Ascii.eqb_refl in H. Qed.

Lemma basename_no_sep p : py.contains "/" (posixpath.basename p) = false.
Proof.
  unfold posixpath.basename. induction p as [|c t IH]; [done|].
  cbn [posixpath.rsplit]. destruct (posixpath.rsplit t) as [h b].
  cbn [snd] in IH. destruct h as [|c' h']; [|done].
  destruct (Ascii.eqb c posixpath.sep) eqn:Hc; [done|].
  cbn [snd]. apply contains_char_cons. split; [|done].
  by apply eqb_neq_char in Hc.
Qed.

Lemma split_first sep s h r :
  py.split sep s = h :: r →
  py.contains (String sep "") h = false
  ∧ ∀ ch, py.contains (String ch "") s = false →
          py.contains (String ch "") h = false.
Proof.
  revert h r. induction s as [|c t IH]; intros h r Hs; cbn in Hs.
  - by injection Hs as <- <-.
  - destruct (Ascii.eqb c sep) eqn:Hc; [by injection Hs as <- <-|].
    destruct (py.split sep t) as [|h' r'] eqn:Ht.
    + destruct (split_cons sep t) as (? & ? & ?). congruence.
    + injection Hs as <- <-. destruct (IH h' r' eq_refl) as [IH1 IH2]. split.
      * apply contains_char_cons. split; [|done]. intros ->.
        by rewrite Ascii.eqb_refl in Hc.
      * intros ch [Hne Hch]%contains_char_cons.
        apply contains_char_cons. split; [done|by apply IH2].
Qed.

(** with an [expanduser] that cannot fail, the constructor is [__init__] *)
Lemma init_raising_total (expanduser : string → string) (url work_dir : string)
    (clean debug low_ram : bool) (filter_arg : option (list string)) :
  __init__raising (λ d, Ok (expanduser d)) url work_dir clean debug
    filter_arg low_ram
  = __init__ expanduser url work_dir clean debug filter_arg low_ram.
Proof. reflexivity. Qed.

(** X1.  The constructor, given strings and a list of strings, fails
    in two ways only: with the exception [os.path.expanduser] raises
    for the work directory, whatever the filter; and, [expanduser]
    having returned, with ValueError('Bad Polarization Provided.')
    exactly when the filter has an element whose uppercase form is not
    a polarization.  Without a filter (None or the empty list) only
    [expanduser] can make it fail. *)
Theorem init_raises
    (expanduser : string → Res string) (url work_dir : string)
    (clean debug low_ram : bool) (filter_arg : option (list string)) (e : exn) :
  __init__raising expanduser url work_dir clean debug filter_arg low_ram = Raise e
  ↔ expanduser work_dir = Raise e
    ∨ ((∃ d, expanduser work_dir = Ok d)
       ∧ e = ValueError "Bad Polarization Provided."
       ∧ ∃ ps, filter_arg = Some ps ∧ Exists (λ p, py.upper p ∉ valid_pols) ps).
Proof.
  unfold __init__raising.
  destruct (split_cons "." (posixpath.basename url)) as (h & r & ->).
  cbn [py.first]. destruct (expanduser work_dir) as [d|e0].
  2:{ split; [intros [= ->]; by left|]. by intros [[= ->]|[[d [=]] _]]. }
  split.
  - intros Hrun. right. split; [by eauto|].
    destruct filter_arg as [[|p ps]|]; [done| |done].
    destruct (issubset (map py.upper (p :: ps)) valid_pols) eqn:Hsub; [done|].
    injection Hrun as <-. split; [done|]. exists (p :: ps). split; [done|].
    apply not_Forall_Exists; [intros x; apply _|]. intros Hall.
    assert (issubset (map py.upper (p :: ps)) valid_pols = true) as Heq.
    { apply issubset_Forall. by apply (Forall_fmap py.upper). }
    congruence.
  - intros [[=]|(_ & -> & ps & -> & Hex)].
    destruct ps as [|p ps]; [by apply Exists_nil in Hex|].
    destruct (issubset (map py.upper (p :: ps)) valid_pols) eqn:Hsub; [|done].
    apply issubset_Forall, (Forall_fmap py.upper) in Hsub.
    apply Exists_exists in Hex as (q & Hq & Hbad).
    rewrite Forall_forall in Hsub. by destruct (Hbad (Hsub q Hq)).
Qed.

Lemma init_raises_witness :
  (example_expanduser ("~a" +:+ String Ascii.zero "b")
   = Raise (ValueError "embedded null byte")
   ∨ ((∃ d, example_expanduser ("~a" +:+ String Ascii.zero "b") = Ok d)
      ∧ ValueError "embedded null byte" = ValueError "Bad Polarization Provided."
      ∧ ∃ ps, Some ["HH"] = Some ps
              ∧ Exists (λ p, py.upper p ∉ valid_pols) ps))
  ∧ __init__raising example_expanduser "https://host/lowman.zip" "~/w"
      true false (Some ["hh"; "XY"]) false
    = Raise (ValueError "Bad Polarization Provided.").
Proof.
  split.
  - apply (init_raises example_expanduser "https://host/lowman.zip"
             ("~a" +:+ String Ascii.zero "b") true false false (Some ["HH"])).
    reflexivity.
  - apply (init_raises example_expanduser "https://host/lowman.zip" "~/w"
             true false false (Some ["hh"; "XY"])).
    right. split; [by exists "/home/user/w"|]. split; [reflexivity|].
    exists ["hh"; "XY"]. split; [reflexivity|].
    apply Exists_cons_tl, Exists_cons_hd. change (py.upper "XY") with "XY".
    unfold valid_pols. rewrite !elem_of_cons, elem_of_nil.
    by intros [?|[?|[?|[?|[]]]]].
Defined.

Lemma init_shape
    (expanduser : string → string) (url work_dir : string)
    (clean debug low_ram : bool) (filter_arg : option (list string))
    (s : UavsarScene) :
  __init__ expanduser url work_dir clean debug filter_arg low_ram = Ok s →
  py.contains "." (pair_name s) = false
  ∧ py.contains "/" (pair_name s) = false
  ∧ String.prefix (pair_name s) (posixpath.basename url) = true
  ∧ zipped_fp s = None ∧ binary_fps s = [] ∧ images s = ∅
  ∧ tmp_dir s = None ∧ out_dir s = None.
Proof.
  unfold __init__.
  destruct (py.split "." (posixpath.basename url)) as [|h r] eqn:Hsplit; [done|].
  cbn [py.first]. intros Hinit.
  assert (pair_name s = h ∧ zipped_fp s = None ∧ binary_fps s = []
          ∧ images s = ∅ ∧ tmp_dir s = None ∧ out_dir s = None)
    as (-> & -> & -> & -> & -> & ->).
  { destruct filter_arg as [[|p ps]|]; try (by injection Hinit as <-).
    destruct (issubset _ _); [by injection Hinit as <-|done]. }
  destruct (split_first _ _ _ _ Hsplit) as [Hdot Hother].
  split; [exact Hdot|]. split; [apply Hother, basename_no_sep|].
  split; [|done]. clear -Hsplit.
  revert h r Hsplit. induction (posixpath.basename url) as [|c t IH];
    intros h r Hs; cbn in Hs.
  - by injection Hs as <- <-.
  - destruct (Ascii.eqb c ".") eqn:Hc; [by injection Hs as <- <-|].
    destruct (py.split "." t) as [|h' r'] eqn:Ht.
    + destruct (split_cons "." t) as (? & ? & ?). congruence.
    + injection Hs as <- <-. cbn. destruct (ascii_dec c c); [|done].
      by eapply IH.
Qed.



(** X3.  Whatever filter a constructed scene stores lies within
    {VV, VH, HV, HH}, and constructing again with the stored filter
    stores the same list. *)
Theorem init_pols_stored_valid
    (expanduser : string → string) (url work_dir : string)
    (clean debug low_ram : bool) (filter_arg : option (list string))
    (s : UavsarScene) (ps : list string) :
  __init__ expanduser url work_dir clean debug filter_arg low_ram = Ok s →
  pols s = Some ps →
  Forall (λ p, p ∈ valid_pols) ps
  ∧ ∃ s', __init__ expanduser url work_dir clean debug (Some ps) low_ram = Ok s'
          ∧ pols s' = Some ps.
Proof.
  intros Hinit Hps.
  assert (Forall (λ p, p ∈ valid_pols) ps) as Hvalid.
  { unfold __init__ in Hinit.
    destruct (py.first _) as [pn|]; [|done].
    destruct filter_arg as [[|p l]|].
    - injection Hinit as <-. cbn in Hps. injection Hps as <-. constructor.
    - destruct (issubset _ _) eqn:Hsub; [|done].
      injection Hinit as <-. cbn [pols] in Hps. injection Hps as <-.
      by apply issubset_Forall.
    - by injection Hinit as <-. }
  split; [done|].
  destruct (init_accepts expanduser url work_dir clean debug low_ram ps)
    as (s' & Hs' & Hp').
  { eapply Forall_impl; [exact Hvalid|]. intros p Hp. cbn.
    by rewrite upper_valid. }
  exists s'. split; [done|]. rewrite Hp'. f_equal.
  clear -Hvalid. induction Hvalid as [|p l Hp _ IH]; [done|].
  rewrite fmap_cons, IH. by rewrite upper_valid.
Qed.

Lemma init_pols_stored_valid_witness :
  Forall (λ p, p ∈ valid_pols) ["HH"; "VV"]
  ∧ ∃ s', __init__ id "https://host/lowman.zip" "/w" true false
            (Some ["HH"; "VV"]) false = Ok s'
          ∧ pols s' = Some ["HH"; "VV"].
Proof.
  destruct (__init__ id "https://host/lowman.zip" "/w" true false
              (Some ["hh"; "Vv"]) false) as [s|e] eqn:Hs;
    [|by vm_compute in Hs].
  apply (init_pols_stored_valid id "https://host/lowman.zip" "/w" true false
           false (Some ["hh"; "Vv"]) s ["HH"; "VV"]).
  - exact Hs.
  - vm_compute in Hs. injection Hs as <-. reflexivity.
Defined.

(** * Download and unzip *)

Lemma final_split_ok sep s : ∃ x, py.final (py.split sep s) = Ok x.
Proof.
  unfold py.final. destruct (split_cons sep s) as (h & r & ->).
  destruct (last (h :: r)) as [x|] eqn:Hl; [by eauto|].
  by apply last_None in Hl.
Qed.

Lemma download_inv dz sub ann s w r st' :
  download dz sub ann (s, w) = (r, st') →
  st'.1 = set_zipped_fp (zipped_fp st'.1)
            (set_tmp_dir (Some (posixpath.join (work_dir s) [sub; pair_name s])) s)
  ∧ (py.final (py.split "." (url s)) ≠ Ok "zip" → zipped_fp st'.1 = zipped_fp s)
  ∧ (r = Ok () → py.final (py.split "." (url s)) = Ok "zip" →
     ∃ fp, zipped_fp st'.1 = Some fp).
Proof.
  unfold download, mbind, M_bind. cbn [get_self set_self fst snd].
  set (out := posixpath.join (work_dir s) [sub; pair_name s]).
  destruct (ensure_dir out (set_tmp_dir (Some out) s, w)) as [[[]|e] [s1 w1]] eqn:Hens;
    apply ensure_dir_inv in Hens as (Hs1 & _); cbn [fst] in Hs1; subst s1.
  2:{ intros [= <- <-]. by destruct s. }
  destruct (final_split_ok "." (url s)) as [ext Hext].
  cbn [url set_tmp_dir]. rewrite Hext. unfold lift.
  destruct (String.eqb_spec ext "zip") as [->|Hne].
  - unfold call. cbn [snd fst].
    destruct (dz (url s) out w1) as [[fp|e] w2]; intros [= <- <-]; cbn [fst snd].
    + split; [done|]. split; [done|]. eauto.
    + split; [by destruct s|]. split; [done|]. done.
  - unfold warning. intros [= <- <-]. cbn [fst snd].
    split; [by destruct s|]. split; [done|]. intros _ [= ?]. done.
Qed.

(** X4.  After [download], however it ends, [tmp_dir] is
    work_dir/sub_dir/pair_name; only [tmp_dir] and [zipped_fp] of the
    scene may have changed, and a successful download of a zip URL has
    recorded a zip path. *)
Theorem download_sets_tmp_dir dz (sub : string) (ann : bool)
    (s : UavsarScene) (w : World) :
  let r := download dz sub ann (s, w) in
  tmp_dir r.2.1 = Some (posixpath.join (work_dir s) [sub; pair_name s])
  ∧ same_config s r.2.1
  ∧ binary_fps r.2.1 = binary_fps s ∧ images r.2.1 = images s
  ∧ (r.1 = Ok () → py.final (py.split "." (url s)) = Ok "zip" →
     ∃ fp, zipped_fp r.2.1 = Some fp).
Proof.
  intros r. subst r.
  destruct (download dz sub ann (s, w)) as [r st'] eqn:Hd.
  apply download_inv in Hd as (Hs & _ & Hzip). cbn [fst snd].
  split; [by rewrite Hs|]. split; [by rewrite Hs|].
  split; [by rewrite Hs|]. split; [by rewrite Hs|]. exact Hzip.
Qed.

(** X5.  For a URL whose last dot-separated part is not [zip] the
    downloader is not used: the outcome is the same whatever it is,
    [zipped_fp] keeps its value, and a normal return has logged the
    warning. *)
Theorem download_non_zip dz dz' (sub : string) (ann : bool)
    (s : UavsarScene) (w : World) :
  py.final (py.split "." (url s)) ≠ Ok "zip" →
  download dz sub ann (s, w) = download dz' sub ann (s, w)
  ∧ zipped_fp (download dz sub ann (s, w)).2.1 = zipped_fp s
  ∧ ((download dz sub ann (s, w)).1 = Ok () →
     log (download dz sub ann (s, w)).2.2
     = log w ++ ["UavsarScene for zip files. Using UavsarImage for single images."]).
Proof.
  intros Hne.
  assert (∀ d, download d sub ann (s, w)
               = match ensure_dir (posixpath.join (work_dir s) [sub; pair_name s])
                         (set_tmp_dir (Some (posixpath.join (work_dir s)
                                               [sub; pair_name s])) s, w) with
                 | (Ok _, st) =>
                     warning "UavsarScene for zip files. Using UavsarImage for single images." st
                 | (Raise e, st) => (Raise e, st)
                 end) as Heq.
  { intros d. unfold download, mbind, M_bind. cbn [get_self set_self fst snd].
    destruct (ensure_dir _ _) as [[[]|e] st]; [|done].
    destruct (final_split_ok "." (url s)) as [ext Hext]. cbn [url set_tmp_dir].
    rewrite Hext. unfold lift.
    destruct (String.eqb_spec ext "zip") as [->|?]; [by rewrite Hext in Hne|done]. }
  split; [by rewrite !Heq|]. rewrite Heq.
  destruct (ensure_dir _ _) as [[[]|e] [s1 w1]] eqn:Hens;
    apply ensure_dir_inv in Hens as (Hs1 & Hlog & _); cbn [fst snd] in *; subst s1.
  - unfold warning. cbn. by rewrite Hlog.
  - by cbn.
Qed.

Lemma unzip_inv cu in_dir sub s w r st' :
  unzip cu in_dir sub (s, w) = (r, st') →
  st'.1 = set_binary_fps (binary_fps st'.1) s
  ∧ (binary_fps st'.1 ≠ binary_fps s → r = Ok ()).
Proof.
  unfold unzip, mbind, M_bind. cbn [get_self fst snd].
  match goal with |- context [(if ?b then ?x else ?y) (s, w)] =>
    assert (∃ d w0, (if b then x else y) (s, w) = (Ok d, (s, w0))) as (d & w0 & ->)
  end.
  { destruct (negb (py.truthy in_dir)); [|by eauto].
    destruct (negb (py.truthy (zipped_fp s))); [|by eauto].
    unfold mbind, M_bind, warning. cbn. by eauto. }
  destruct (tmp_dir s) as [t|]; cbn [mret M_ret raise].
  2:{ intros [= <- <-]. cbn. by rewrite set_binary_fps_id. }
  destruct (ensure_dir _ (s, w0)) as [[[]|e] [s1 w1]] eqn:Hens;
    apply ensure_dir_inv in Hens as (Hs1 & _); cbn [fst] in Hs1; subst s1.
  2:{ intros [= <- <-]. cbn. by rewrite set_binary_fps_id. }
  unfold call. cbn [fst snd].
  destruct (cu d _ (pols s) w1) as [[fps|e] w2]; intros [= <- <-]; cbn.
  - done.
  - by rewrite set_binary_fps_id.
Qed.

(** X6.  [unzip] on a scene that was never downloaded ([tmp_dir] is
    None) raises TypeError before any directory is made or the
    archive is opened: the scene and the file system are unchanged, and
    the only trace is the warning logged when no zip file is known. *)
Theorem unzip_before_download cu (in_dir : option string) (sub : string)
    (s : UavsarScene) (w : World) :
  tmp_dir s = None →
  unzip cu in_dir sub (s, w)
  = (Raise TypeError,
     (s, {| fs := fs w;
            log := log w ++
                   (if py.truthy in_dir || py.truthy (zipped_fp s) then []
                    else ["No known zip file for this scene. Please provide."]) |})).
Proof.
  intros Ht. unfold unzip, mbind, M_bind. cbn [get_self fst snd].
  destruct (py.truthy in_dir); cbn [negb orb mret M_ret]; rewrite Ht.
  - cbn. rewrite app_nil_r. by destruct w.
  - destruct (py.truthy (zipped_fp s)); cbn [negb mret M_ret raise].
    + rewrite app_nil_r. by destruct w.
    + reflexivity.
Qed.

Lemma download_sets_tmp_dir_witness :
  tmp_dir (download example_download_zip "tmp/" true
             (new_scene true, empty_world)).2.1
  = Some "/w/tmp/lowman"
  ∧ ∃ fp, zipped_fp (download example_download_zip "tmp/" true
                       (new_scene true, empty_world)).2.1 = Some fp.
Proof.
  destruct (download_sets_tmp_dir example_download_zip "tmp/" true
              (new_scene true) empty_world) as (Ht & _ & _ & _ & Hz).
  split; [exact Ht|]. apply Hz; reflexivity.
Defined.

Lemma download_non_zip_witness :
  download example_download_zip "tmp/" true
    (example_scene "https://host/lowman_HH_01.grd" "/w" true false, empty_world)
  = download (λ _ _ w, (Raise IndexError, w)) "tmp/" true
      (example_scene "https://host/lowman_HH_01.grd" "/w" true false, empty_world)
  ∧ zipped_fp (download example_download_zip "tmp/" true
                 (example_scene "https://host/lowman_HH_01.grd" "/w" true false,
                  empty_world)).2.1 = None
  ∧ ((download example_download_zip "tmp/" true
        (example_scene "https://host/lowman_HH_01.grd" "/w" true false,
         empty_world)).1 = Ok () →
     log (download example_download_zip "tmp/" true
            (example_scene "https://host/lowman_HH_01.grd" "/w" true false,
             empty_world)).2.2
     = [] ++ ["UavsarScene for zip files. Using UavsarImage for single images."]).
Proof.
  apply (download_non_zip example_download_zip (λ _ _ w, (Raise IndexError, w))
           "tmp/" true
           (example_scene "https://host/lowman_HH_01.grd" "/w" true false)
           empty_world).
  intros H. vm_compute in H. discriminate H.
Defined.

Lemma unzip_before_download_witness :
  unzip example_unzip None "bin_imgs/" (new_scene true, empty_world)
  = (Raise TypeError,
     (new_scene true,
      {| fs := fs empty_world;
         log := [] ++ ["No known zip file for this scene. Please provide."] |})).
Proof.
  apply (unzip_before_download example_unzip None "bin_imgs/"
           (new_scene true) empty_world).
  reflexivity.
Defined.

(** * Further properties of [binary_to_tiffs] *)

Lemma locate_binaries_dir (d : string) s w :
  py.truthy (Some d) = true →
  locate_binaries (Some d) (s, w)
  = match os.listdir d (fs w) with
    | Ok names => (Ok (), (set_binary_fps names s, w))
    | Raise e => (Raise e, (s, w))
    end.
Proof.
  intros Hd. unfold locate_binaries, mbind, M_bind, get_self, get_fs, lift,
    set_self. cbn [fst snd]. rewrite Hd. cbn.
  by destruct (os.listdir d (fs w)).
Qed.

Lemma cleanup_clean st :
  clean st.1 = true →
  cleanup st
  = match tmp_dir st.1 with
    | Some t => sys (shutil.rmtree (posixpath.dirname t)) st
    | None => (Raise TypeError, st)
    end.
Proof.
  intros Hc. unfold cleanup, mbind, M_bind, get_self, when. rewrite Hc.
  by destruct (tmp_dir st.1).
Qed.

(** the run either stops before the loop is through, the scene changed
    in [binary_fps] and [images] at most, or reaches the cleanup *)
Lemma binary_to_tiffs_cases gtc bd af s w r st' :
  binary_to_tiffs gtc bd af (s, w) = (r, st') →
  ∃ r1 s1, locate_binaries bd (s, w) = (r1, (s1, w))
    ∧ s1 = set_binary_fps (binary_fps s1) s
    ∧ ((∃ e, r = Raise e ∧ st'.1 = set_images (images st'.1) s1)
       ∨ (∃ s4 w4, s4 = set_images (images s4) s1
            ∧ cleanup (set_out_dir
                         (Some (posixpath.join (work_dir s) [pair_name s])) s4,
                       w4) = (r, st'))).
Proof.
  unfold binary_to_tiffs, mbind, M_bind. intros Hrun.
  destruct (locate_binaries bd (s, w)) as [r1 [s1 w1]] eqn:Hloc.
  pose proof Hloc as Hloc'.
  apply locate_binaries_inv in Hloc' as (Hw1 & Hs1 & _); cbn [fst snd] in *.
  subst w1. exists r1, s1. split; [done|]. split; [done|].
  destruct r1 as [[]|e].
  2:{ injection Hrun as <- <-. left. exists e. cbn. by rewrite set_images_id. }
  cbn [get_self fst snd] in Hrun.
  replace (work_dir s1) with (work_dir s) in * by (by rewrite Hs1).
  replace (pair_name s1) with (pair_name s) in * by (by rewrite Hs1).
  set (out := posixpath.join (work_dir s) [pair_name s]) in *.
  destruct (ensure_dir out (s1, w)) as [[[]|e] [s2 w2]] eqn:Hens;
    apply ensure_dir_inv in Hens as (Hs2 & _); cbn [fst snd] in *; subst s2.
  2:{ injection Hrun as <- <-. left. exists e. cbn. by rewrite set_images_id. }
  destruct (find_annotations _ af (s1, w2)) as [[locals|e] [s3 w3]] eqn:Hfa;
    apply find_annotations_inv in Hfa as (Hs3 & _ & (? & [= ->] & _));
    cbn [fst snd] in *; subst s3.
  destruct (convert_loop gtc _ _ _ out af _ (s1, w3)) as [[[]|e] [s4 w4]] eqn:Hloop;
    apply convert_loop_inv in Hloop as (xs & Hs4 & _); cbn [fst snd] in *.
  2:{ injection Hrun as <- <-. left. exists e. cbn. by rewrite Hs4. }
  cbn [set_self fst snd] in Hrun. right. exists s4, w4.
  split; [by rewrite Hs4|exact Hrun].
Qed.

Lemma binary_to_tiffs_scene gtc bd af s w r st' :
  binary_to_tiffs gtc bd af (s, w) = (r, st') →
  st'.1 = set_out_dir (out_dir st'.1)
            (set_images (images st'.1) (set_binary_fps (binary_fps st'.1) s)).
Proof.
  intros (r1 & s1 & _ & Hs1 & [(e & _ & Hs')|(s4 & w4 & Hs4 & Hcl)])%binary_to_tiffs_cases.
  - rewrite Hs', Hs1. by destruct s.
  - apply cleanup_inv in Hcl as (Hs' & _). cbn [fst] in Hs'.
    rewrite Hs', Hs4, Hs1. by destruct s.
Qed.

(** X7.  No operation changes what the constructor fixed: URL, pair
    name, work directory, the flags and the polarization filter are
    the same after [download], [unzip] and [binary_to_tiffs], however
    they end; [unzip] and [binary_to_tiffs] also leave [tmp_dir] and
    [zipped_fp] alone. *)
Theorem operations_keep_config dz cu gtc (sub : string) (ann : bool)
    (in_dir bd af : option string) (s : UavsarScene) (w : World) :
  same_config s (download dz sub ann (s, w)).2.1
  ∧ (same_config s (unzip cu in_dir sub (s, w)).2.1
     ∧ tmp_dir (unzip cu in_dir sub (s, w)).2.1 = tmp_dir s
     ∧ zipped_fp (unzip cu in_dir sub (s, w)).2.1 = zipped_fp s)
  ∧ (same_config s (binary_to_tiffs gtc bd af (s, w)).2.1
     ∧ tmp_dir (binary_to_tiffs gtc bd af (s, w)).2.1 = tmp_dir s
     ∧ zipped_fp (binary_to_tiffs gtc bd af (s, w)).2.1 = zipped_fp s).
Proof.
  split; [|split].
  - destruct (download dz sub ann (s, w)) as [r st'] eqn:Hd.
    apply download_inv in Hd as (Hs & _). cbn [fst snd]. by rewrite Hs.
  - destruct (unzip cu in_dir sub (s, w)) as [r st'] eqn:Hu.
    apply unzip_inv in Hu as (Hs & _). cbn [fst snd]. by rewrite Hs.
  - destruct (binary_to_tiffs gtc bd af (s, w)) as [r st'] eqn:Hb.
    apply binary_to_tiffs_scene in Hb. cbn [fst snd]. by rewrite Hb.
Qed.





(** X10.  With a [binary_dir] argument the file list becomes what
    [os.listdir] returns: bare names without any directory part, not
    paths inside [binary_dir].  If the directory cannot be listed the
    call fails with that error and changes nothing. *)
Theorem binary_dir_lists_bare_names gtc (d : string) (af : option string)
    (s : UavsarScene) (w : World) :
  py.truthy (Some d) = true →
  (∀ e, os.listdir d (fs w) = Raise e →
        binary_to_tiffs gtc (Some d) af (s, w) = (Raise e, (s, w)))
  ∧ (∀ names, os.listdir d (fs w) = Ok names →
       binary_fps (binary_to_tiffs gtc (Some d) af (s, w)).2.1 = names
       ∧ Forall (λ f, py.contains "/" f = false) names).
Proof.
  intros Hd. split.
  - intros e He. unfold binary_to_tiffs, mbind, M_bind.
    by rewrite (locate_binaries_dir d s w Hd), He.
  - intros names Hn. split.
    + destruct (binary_to_tiffs gtc (Some d) af (s, w)) as [r st'] eqn:Hrun.
      pose proof (binary_to_tiffs_cases _ _ _ _ _ _ _ Hrun)
        as (r1 & s1 & Hloc & _ & Hcase).
      rewrite (locate_binaries_dir d s w Hd), Hn in Hloc.
      injection Hloc as <- <-. cbn [fst snd].
      destruct Hcase as [(e & _ & ->)|(s4 & w4 & Hs4 & Hcl)]; [done|].
      apply cleanup_inv in Hcl as (-> & _). cbn [fst]. by rewrite Hs4.
    + unfold os.listdir in Hn.
      destruct (fs w !! os.key d) as [[|c]|]; try done.
      injection Hn as <-. apply Forall_fmap, Forall_forall.
      intros q _. apply basename_no_sep.
Qed.

Lemma binary_dir_lists_bare_names_witness :
  binary_to_tiffs example_convert (Some "/w/nowhere") None
    (lowman_scene false false, lowman_world)
  = (Raise (FileNotFoundError "/w/nowhere"),
     (lowman_scene false false, lowman_world))
  ∧ Forall (λ f, py.contains "/" f = false)
      (binary_fps (binary_to_tiffs example_convert
                     (Some "/w/tmp/lowman/bin_imgs") None
                     (lowman_scene false false, lowman_world)).2.1).
Proof.
  split.
  - apply (binary_dir_lists_bare_names example_convert "/w/nowhere" None
             (lowman_scene false false) lowman_world); reflexivity.
  - destruct (os.listdir "/w/tmp/lowman/bin_imgs" (fs lowman_world))
      as [names|e] eqn:Hn; [|by vm_compute in Hn].
    destruct (binary_dir_lists_bare_names example_convert
                "/w/tmp/lowman/bin_imgs" None (lowman_scene false false)
                lowman_world eq_refl) as [_ Hok].
    destruct (Hok names Hn) as [-> Hall]. exact Hall.
Defined.

(** X11.  Every result is stored under its own product type: if that
    holds of the mapping before [binary_to_tiffs] (as it does of the
    empty mapping), it holds afterwards, however the call ends. *)
Theorem images_stay_keyed_by_type gtc (bd af : option string)
    (s : UavsarScene) (w : World) :
  keyed_by_type (images s) →
  keyed_by_type (images (binary_to_tiffs gtc bd af (s, w)).2.1).
Proof.
  intros Hinv k x.
  destruct (binary_to_tiffs gtc bd af (s, w)) as [r [s' w']] eqn:Hrun.
  apply binary_to_tiffs_inv in Hrun as (xs & Him & _). cbn [fst snd].
  rewrite Him. intros [[_ Ht]|Hold]%stored_lookup; [done|by apply Hinv].
Qed.

Lemma images_stay_keyed_by_type_witness :
  keyed_by_type (images (binary_to_tiffs example_convert None None
                           (lowman_scene false false, lowman_world)).2.1).
Proof.
  apply (images_stay_keyed_by_type example_convert None None
           (lowman_scene false false) lowman_world).
  intros k x Hx. by vm_compute in Hx.
Defined.

(** X12.  A conversion never drops a result: a product type that had
    a result before still has one afterwards, the same one or that of
    a binary file converted by this call. *)
Theorem earlier_results_persist gtc (bd af : option string)
    (s : UavsarScene) (w : World) (k : string) (x : ConversionResult) :
  images s !! k = Some x →
  ∃ x', images (binary_to_tiffs gtc bd af (s, w)).2.1 !! k = Some x'
        ∧ (x' = x
           ∨ ∃ f, converted gtc (posixpath.join (work_dir s) [pair_name s]) s f x'
                  ∧ type x' = k).
Proof.
  intros Hx.
  destruct (binary_to_tiffs gtc bd af (s, w)) as [r [s' w']] eqn:Hrun.
  apply binary_to_tiffs_inv in Hrun as (xs & Him & _ & Hall & _).
  cbn [fst snd]. rewrite Him.
  assert (is_Some (stored xs (images s) !! k)) as [x' Hx'].
  { apply elem_of_dom. rewrite stored_dom. apply elem_of_union_r.
    apply elem_of_dom. by eauto. }
  exists x'. split; [done|].
  apply stored_lookup in Hx' as [[Hin Ht]|Hold]; [right|left; congruence].
  apply list_elem_of_lookup in Hin as [i Hi].
  destruct (Forall2_lookup_r _ _ _ _ _ Hall Hi) as (f & _ & Hconv).
  by exists f.
Qed.

Lemma earlier_results_persist_witness :
  ∃ x', images (binary_to_tiffs example_convert None None
                  (lowman_run false false).2).2.1 !! "cor" = Some x'.
Proof.
  destruct (images (lowman_run false false).2.1 !! "cor") as [x|] eqn:Hx;
    [|by vm_compute in Hx].
  destruct (earlier_results_persist example_convert None None
              (lowman_run false false).2.1 (lowman_run false false).2.2
              "cor" x Hx) as (x' & Hx' & _).
  exists x'. by destruct (lowman_run false false) as [r [s1 w1]].
Defined.

(** X13.  A conversion that returns normally with [clean] set had a
    [tmp_dir], and has removed everything in [dirname(tmp_dir)]: no
    path inside that directory is left, the unzipped binary files and
    the downloaded archive included. *)
Theorem cleanup_empties_tmp_root gtc (bd af : option string)
    (s : UavsarScene) (w : World) :
  (binary_to_tiffs gtc bd af (s, w)).1 = Ok () →
  clean s = true →
  ∃ t, tmp_dir s = Some t
       ∧ ∀ p, os.inside (os.key (posixpath.dirname t)) p = true →
              fs (binary_to_tiffs gtc bd af (s, w)).2.2 !! p = None.
Proof.
  destruct (binary_to_tiffs gtc bd af (s, w)) as [r st'] eqn:Hrun.
  cbn [fst snd]. intros -> Hclean.
  apply binary_to_tiffs_cases in Hrun
    as (r1 & s1 & _ & Hs1 & [(e & ? & _)|(s4 & w4 & Hs4 & Hcl)]); [done|].
  rewrite cleanup_clean in Hcl by (cbn; by rewrite Hs4, Hs1).
  cbn [fst set_out_dir tmp_dir] in Hcl.
  replace (tmp_dir s4) with (tmp_dir s) in Hcl by (by rewrite Hs4, Hs1).
  destruct (tmp_dir s) as [t|]; [|done]. exists t. split; [done|].
  unfold sys, shutil.rmtree in Hcl. cbn [fst snd] in Hcl.
  destruct (fs w4 !! os.key (posixpath.dirname t)) as [[|c]|]; try done.
  injection Hcl as <-. cbn [snd fs]. intros p Hp.
  apply map_lookup_filter_None. right. intros x _. cbn. by rewrite Hp.
Qed.

Lemma cleanup_empties_tmp_root_witness :
  ∃ t, tmp_dir (lowman_scene true false) = Some t
       ∧ ∀ p, os.inside (os.key (posixpath.dirname t)) p = true →
              fs (binary_to_tiffs example_convert None None
                    (lowman_scene true false, lowman_world)).2.2 !! p = None.
Proof.
  apply (cleanup_empties_tmp_root example_convert None None
           (lowman_scene true false) lowman_world).
  - vm_compute. reflexivity.
  - reflexivity.
Defined.

(** X14.  With [clean] set and no [tmp_dir] (the scene was never
    downloaded, as when the files come from a [binary_dir] argument)
    [binary_to_tiffs] cannot return normally: either it fails before
    the loop is through, [out_dir] untouched, or the cleanup raises
    TypeError after all files have been converted. *)
Theorem clean_needs_download gtc (bd af : option string)
    (s : UavsarScene) (w : World) :
  clean s = true →
  tmp_dir s = None →
  ∃ e, (binary_to_tiffs gtc bd af (s, w)).1 = Raise e
       ∧ (e = TypeError
          ∨ out_dir (binary_to_tiffs gtc bd af (s, w)).2.1 = out_dir s).
Proof.
  intros Hclean Htmp.
  destruct (binary_to_tiffs gtc bd af (s, w)) as [r st'] eqn:Hrun.
  cbn [fst snd].
  apply binary_to_tiffs_cases in Hrun
    as (r1 & s1 & _ & Hs1 & [(e & -> & Hs')|(s4 & w4 & Hs4 & Hcl)]).
  - exists e. split; [done|]. right. by rewrite Hs', Hs1.
  - rewrite cleanup_clean in Hcl by (cbn; by rewrite Hs4, Hs1).
    cbn [fst set_out_dir tmp_dir] in Hcl.
    replace (tmp_dir s4) with (tmp_dir s) in Hcl by (by rewrite Hs4, Hs1).
    rewrite Htmp in Hcl. injection Hcl as <- <-.
    exists TypeError. by split; [|left].
Qed.

Lemma clean_needs_download_witness :
  ∃ e, (binary_to_tiffs example_convert (Some "/w/tmp/lowman/bin_imgs") None
          (new_scene true, lowman_world)).1 = Raise e
       ∧ (e = TypeError
          ∨ out_dir (binary_to_tiffs example_convert
                       (Some "/w/tmp/lowman/bin_imgs") None
                       (new_scene true, lowman_world)).2.1
            = out_dir (new_scene true)).
Proof.
  apply (clean_needs_download example_convert (Some "/w/tmp/lowman/bin_imgs")
           None (new_scene true) lowman_world); reflexivity.
Defined.

Lemma build_ann_dic_unnamed pols ann_fps :
  Forall (λ fp, Forall (λ pol, py.contains pol fp = false) pols) ann_fps →
  build_ann_dic pols ann_fps = ∅.
Proof.
  intros Hall. unfold build_ann_dic. generalize (∅ : gmap string string).
  induction pols as [|p pols IH]; intros acc; [done|].
  cbn [fold_left].
  assert (filter (λ fp, py.contains p fp = true) ann_fps = []) as ->.
  { clear IH. induction Hall as [|fp l Hfp _ IHl]; [done|].
    apply Forall_cons in Hfp as [Hp _]. rewrite filter_cons.
    rewrite decide_False by (by rewrite Hp). exact IHl. }
  apply IH. eapply Forall_impl; [exact Hall|].
  intros fp Hfp. by apply Forall_cons in Hfp as [_ ?].
Qed.

(** X15.  When no annotation file names a polarization, every binary
    file is converted with the first annotation file of the list. *)
Theorem annotation_fallback gtc (pols ann_rest : list string) (a out : string)
    (fps : list string) (st : UavsarScene * World) :
  py.truthy (Some a) = true →
  Forall (λ fp, Forall (λ pol, py.contains pol fp = false) pols)
    (a :: ann_rest) →
  convert_loop gtc pols (Some (build_ann_dic pols (a :: ann_rest)))
    (Some (a :: ann_rest)) out None fps st
  = convert_each gtc out a fps st.
Proof.
  intros Ha Hall. rewrite (build_ann_dic_unnamed _ _ Hall).
  assert (∀ a0 f st0, a0 = None ∨ a0 = Some a →
            select_annotation pols (Some ∅) (Some (a :: ann_rest)) f a0 st0
            = (Ok (Some a), st0)) as Hsel.
  { intros a0 f st0 Ha0.
    unfold select_annotation, mbind, M_bind, local, lift, mret, M_ret.
    rewrite map_size_empty. cbn [Nat.ltb Nat.leb].
    destruct Ha0 as [->| ->]; [done|]. by rewrite Ha. }
  assert (∀ a0, a0 = None ∨ a0 = Some a →
            convert_loop gtc pols (Some ∅) (Some (a :: ann_rest)) out a0 fps st
            = convert_each gtc out a fps st) as Hloop.
  { revert st. induction fps as [|f rest IH]; intros st a0 Ha0; [done|].
    cbn [convert_loop convert_each]. unfold mbind, M_bind.
    rewrite (Hsel a0 f st Ha0).
    destruct (convert_file gtc out f (Some a) st) as [[[]|e] st2]; [|done].
    apply IH. by right. }
  apply Hloop. by left.
Qed.

Lemma annotation_fallback_witness :
  convert_loop example_convert ["VV"; "VH"; "HV"; "HH"]
    (Some (build_ann_dic ["VV"; "VH"; "HV"; "HH"]
             ["/w/tmp/lowman/bin_imgs/lowman.ann"]))
    (Some ["/w/tmp/lowman/bin_imgs/lowman.ann"]) "/w/lowman" None
    ["/w/tmp/lowman/bin_imgs/lowman_01.cor.grd";
     "/w/tmp/lowman/bin_imgs/lowman_01.hgt.grd"]
    (plain_scene, plain_world)
  = convert_each example_convert "/w/lowman" "/w/tmp/lowman/bin_imgs/lowman.ann"
      ["/w/tmp/lowman/bin_imgs/lowman_01.cor.grd";
       "/w/tmp/lowman/bin_imgs/lowman_01.hgt.grd"]
      (plain_scene, plain_world).
Proof.
  apply (annotation_fallback example_convert ["VV"; "VH"; "HV"; "HH"] []
           "/w/tmp/lowman/bin_imgs/lowman.ann" "/w/lowman").
  - reflexivity.
  - repeat constructor.
Defined.

(** X16.  [binary_to_tiffs] called with its default arguments on a
    scene with a binary file [f] whose base name contains none of VV,
    VH, HV, HH, while some annotation file path contains one of them.
    The call never completes: it ends with the error of [os.makedirs]
    if the output directory is missing and cannot be made; else with
    the error of the first binary file listed before [f] that fails,
    in the choice of its annotation file or in its conversion, in the
    state reached there; else, the files before [f] converted, it
    stops at [f] with IndexError in the state
    those conversions left, so that neither [f] nor a file after it is
    converted. *)
Theorem unnamed_polarization_index_error gtc (s : UavsarScene) (w : World)
    (pre post : list string) (f : string) :
  let pols := ["VV"; "VH"; "HV"; "HH"] in
  let ann_fps := filter (λ a, py.contains ".ann" a = true) (binary_fps s) in
  let dic := build_ann_dic pols ann_fps in
  let out := posixpath.join (work_dir s) [pair_name s] in
  filter (λ g, py.contains ".ann" g = false) (binary_fps s) = pre ++ f :: post →
  Exists (λ a, Exists (λ pol, py.contains pol a = true) pols) ann_fps →
  Forall (λ pol, py.contains pol (posixpath.basename f) = false) pols →
  (∃ e, (binary_to_tiffs gtc None None (s, w)).1 = Raise e)
  ∧ binary_to_tiffs gtc None None (s, w)
    = match ensure_dir out (s, w) with
      | (Ok _, st0) =>
          match convert_loop gtc pols (Some dic) (Some ann_fps) out None pre st0
          with
          | (Ok _, st1) => (Raise IndexError, st1)
          | (Raise e, st1) => (Raise e, st1)
          end
      | (Raise e, st0) => (Raise e, st0)
      end.
Proof.
  intros pols ann_fps dic out Hfps Hex Hp.
  assert (0 < size dic) as Hsz by (by apply build_ann_dic_nonempty).
  rewrite (binary_to_tiffs_stops_at gtc s w pre post f IndexError Hfps Hsz).
  - fold pols ann_fps dic out. split; [|done].
    destruct (ensure_dir out (s, w)) as [[[]|e0] st0]; [|by eauto].
    destruct (convert_loop gtc pols (Some dic) (Some ann_fps) out None pre st0)
      as [[[]|e1] st1]; by eauto.
  - intros st. by apply select_annotation_unnamed.
Qed.

Lemma unnamed_polarization_index_error_witness :
  binary_to_tiffs example_convert None None (mixed_scene, mixed_world)
  = (Raise IndexError,
     (convert_loop example_convert ["VV"; "VH"; "HV"; "HH"]
        (Some (build_ann_dic ["VV"; "VH"; "HV"; "HH"]
                 ["/w/tmp/lowman/bin_imgs/lowman_HH_01.ann"]))
        (Some ["/w/tmp/lowman/bin_imgs/lowman_HH_01.ann"])
        "/w/lowman" None ["/w/tmp/lowman/bin_imgs/lowman_HH_01.cor.grd"]
        (ensure_dir "/w/lowman" (mixed_scene, mixed_world)).2).2)
  ∧ dom (images (binary_to_tiffs example_convert None None
                   (mixed_scene, mixed_world)).2.1) = {["cor"]}.
Proof.
  destruct (unnamed_polarization_index_error example_convert
              mixed_scene mixed_world
              ["/w/tmp/lowman/bin_imgs/lowman_HH_01.cor.grd"] []
              "/w/tmp/lowman/bin_imgs/lowman_01.hgt.grd")
    as [_ Hstop].
  - reflexivity.
  - apply Exists_cons_hd, Exists_cons_tl, Exists_cons_tl, Exists_cons_tl,
      Exists_cons_hd. reflexivity.
  - repeat constructor.
  - split; [rewrite Hstop|]; vm_compute; reflexivity.
Defined.

(** * [show] and [url_to_tiffs] *)

(** X17.  [show] never changes the scene, and for a product type
    without a stored result it does nothing at all. *)
Theorem show_keeps_scene is_float64 plot (i : string)
    (s : UavsarScene) (w : World) :
  (show is_float64 plot i (s, w)).2.1 = s
  ∧ (images s !! i = None → show is_float64 plot i (s, w) = (Ok (), (s, w))).
Proof.
  unfold show, mbind, M_bind, get_self, call, raise, mret, M_ret.
  cbn [fst snd]. destruct (images s !! i) as [x|]; [|done].
  split; [|done]. destruct (array x) as [a|]; [|done].
  cbn [fst snd]. by destruct (plot (negb (is_float64 a)) a (type x) w).
Qed.

Lemma show_keeps_scene_witness :
  show example_is_float64 example_plot "unw" (lowman_run false false).2
  = (Ok (), ((lowman_run false false).2.1, (lowman_run false false).2.2)).
Proof.
  apply (show_keeps_scene example_is_float64 example_plot "unw"
           (lowman_run false false).2.1 (lowman_run false false).2.2).
  vm_compute. reflexivity.
Defined.

(** X18.  After a conversion in low-memory mode [show] cannot display
    anything: for every product type with a stored result it raises
    KeyError for the missing ['array'] entry, for any other type it
    does nothing. *)
Theorem show_after_low_ram_conversion gtc is_float64 plot
    (bd af : option string) (s : UavsarScene) (w : World) (i : string) :
  low_ram s = true →
  images s = ∅ →
  show is_float64 plot i (binary_to_tiffs gtc bd af (s, w)).2
  = (match images (binary_to_tiffs gtc bd af (s, w)).2.1 !! i with
     | Some _ => Raise (KeyError "array")
     | None => Ok ()
     end,
     (binary_to_tiffs gtc bd af (s, w)).2).
Proof.
  intros Hlr Hempty.
  destruct (binary_to_tiffs gtc bd af (s, w)) as [r [s' w']] eqn:Hrun.
  apply binary_to_tiffs_inv in Hrun as (xs & Him & _ & Hall & _).
  cbn [fst snd]. unfold show, mbind, M_bind, get_self, raise, mret, M_ret.
  cbn [fst snd]. destruct (images s' !! i) as [x|] eqn:Hx; [|done].
  rewrite Him, Hempty in Hx.
  apply stored_lookup in Hx as [[Hin _]|Hold]; [|by rewrite lookup_empty in Hold].
  apply list_elem_of_lookup in Hin as [n Hn].
  destruct (Forall2_lookup_r _ _ _ _ _ Hall Hn)
    as (f & _ & (a & w1 & w2 & y & _ & ->)).
  by rewrite (proj2 (conversion_result_array (low_ram s) y) Hlr).
Qed.

Lemma show_after_low_ram_conversion_witness :
  show example_is_float64 example_plot "cor"
    (binary_to_tiffs example_convert None None
       (lowman_scene false true, lowman_world)).2
  = (match images (binary_to_tiffs example_convert None None
                     (lowman_scene false true, lowman_world)).2.1 !! "cor" with
     | Some _ => Raise (KeyError "array")
     | None => Ok ()
     end,
     (binary_to_tiffs example_convert None None
        (lowman_scene false true, lowman_world)).2).
Proof.
  apply (show_after_low_ram_conversion example_convert example_is_float64
           example_plot None None (lowman_scene false true) lowman_world "cor");
    reflexivity.
Defined.

(** X19.  A conversion that returns normally has set [out_dir] to
    work_dir/pair_name. *)
Theorem success_sets_out_dir gtc (bd af : option string)
    (s : UavsarScene) (w : World) :
  (binary_to_tiffs gtc bd af (s, w)).1 = Ok () →
  out_dir (binary_to_tiffs gtc bd af (s, w)).2.1
  = Some (posixpath.join (work_dir s) [pair_name s]).
Proof.
  destruct (binary_to_tiffs gtc bd af (s, w)) as [r st'] eqn:Hrun.
  cbn [fst snd]. intros ->.
  apply binary_to_tiffs_cases in Hrun
    as (r1 & s1 & _ & _ & [(e & ? & _)|(s4 & w4 & _ & Hcl)]); [done|].
  apply cleanup_inv in Hcl as (-> & _). done.
Qed.

Lemma success_sets_out_dir_witness :
  out_dir (binary_to_tiffs example_convert None None
             (lowman_scene true false, lowman_world)).2.1
  = Some (posixpath.join (work_dir (lowman_scene true false))
            [pair_name (lowman_scene true false)]).
Proof.
  apply (success_sets_out_dir example_convert None None
           (lowman_scene true false) lowman_world).
  vm_compute. reflexivity.
Defined.

(** X20.  [url_to_tiffs] runs download, unzip and conversion in turn
    and stops at the first failure.  When they succeed but no result
    was stored, it fails with IndexError and writes no CSV; otherwise
    the CSV with the description of the drawn result goes to
    work_dir/pair_name/pair_name.csv. *)
Theorem url_to_tiffs_summary dz cu gtc randbelow to_csv
    (s : UavsarScene) (w : World) (st : UavsarScene * World) :
  let stages := download dz "tmp/" true;;
                unzip cu None "bin_imgs/";;
                binary_to_tiffs gtc None None in
  (∀ e, stages (s, w) = (Raise e, st) →
        url_to_tiffs dz cu gtc randbelow to_csv (s, w) = (Raise e, st))
  ∧ (stages (s, w) = (Ok (), st) → images st.1 = ∅ →
     url_to_tiffs dz cu gtc randbelow to_csv (s, w) = (Raise IndexError, st))
  ∧ (∀ x, stages (s, w) = (Ok (), st) →
          choice randbelow (map_to_list (images st.1)).*2 = Ok x →
          url_to_tiffs dz cu gtc randbelow to_csv (s, w)
          = call (to_csv (description x)
                    (posixpath.join (posixpath.join (work_dir s) [pair_name s])
                       [pair_name s +:+ ".csv"])) st).
Proof.
  intros stages. subst stages. unfold url_to_tiffs, mbind, M_bind.
  destruct (download dz "tmp/" true (s, w)) as [[[]|e1] [s1 w1]] eqn:Hd.
  2:{ repeat split; intros; simplify_eq; done. }
  destruct (unzip cu None "bin_imgs/" (s1, w1)) as [[[]|e2] [s2 w2]] eqn:Hu.
  2:{ repeat split; intros; simplify_eq; done. }
  destruct (binary_to_tiffs gtc None None (s2, w2)) as [[[]|e3] [s3 w3]] eqn:Hb.
  2:{ repeat split; intros; simplify_eq; done. }
  assert (out_dir s3 = Some (posixpath.join (work_dir s) [pair_name s])
          ∧ pair_name s3 = pair_name s) as [Hout Hpn].
  { pose proof (Hcases := binary_to_tiffs_cases _ _ _ _ _ _ _ Hb).
    destruct Hcases
      as (r1 & s1' & _ & _ & [(e & ? & _)|(s4 & w4 & _ & Hcl)]); [done|].
    apply cleanup_inv in Hcl as (Hs3 & _). cbn [fst] in Hs3.
    apply binary_to_tiffs_scene in Hb. apply unzip_inv in Hu as (Hs2 & _).
    apply download_inv in Hd as (Hs1 & _). cbn [fst] in *.
    split.
    - rewrite Hs3. cbn. by rewrite Hs2, Hs1.
    - rewrite Hb. cbn. by rewrite Hs2, Hs1. }
  cbn [get_self fst snd]. unfold lift, get_out_dir, mbind, M_bind, get_self.
  cbn [fst snd]. split; [by intros; simplify_eq|]. split.
  - intros [= <-] Hempty. cbn [fst] in Hempty.
    by rewrite Hempty, map_to_list_empty.
  - intros x [= <-] Hx. cbn [fst] in Hx. rewrite Hx, Hout, Hpn. done.
Qed.

Lemma url_to_tiffs_summary_witness :
  url_to_tiffs example_download_zip example_unzip example_convert
    example_randbelow example_to_csv (new_scene true, empty_world)
  = (Raise IndexError,
     ((download example_download_zip "tmp/" true;;
       unzip example_unzip None "bin_imgs/";;
       binary_to_tiffs example_convert None None)
        (new_scene true, empty_world)).2).
Proof.
  apply (url_to_tiffs_summary example_download_zip example_unzip
           example_convert example_randbelow example_to_csv
           (new_scene true) empty_world).
  - vm_compute. reflexivity.
  - vm_compute. reflexivity.
Defined.

(** * The directory that the cleanup removes *)

Lemma str_app_cons x (a b : string) : String x a +:+ b = String x (a +:+ b).
Proof. reflexivity. Qed.

Lemma str_app_nil (b : string) : "" +:+ b = b.
Proof. reflexivity. Qed.

Lemma append_assoc_str (a b c : string) : (a +:+ b) +:+ c = a +:+ (b +:+ c).
Proof.
  induction a as [|x a IH]; [done|]. rewrite !str_app_cons. by f_equal.
Qed.

Lemma rsplit_no_sep b :
  py.contains "/" b = false → posixpath.rsplit b = ("", b).
Proof.
  induction b as [|c t IH]; [done|].
  intros [Hne Ht]%contains_char_cons. cbn [posixpath.rsplit].
  rewrite (IH Ht).
  destruct (Ascii.eqb_spec c posixpath.sep) as [->|_]; [by destruct Hne|done].
Qed.

Lemma rsplit_app a b :
  py.contains "/" b = false →
  posixpath.rsplit (a +:+ String "/" b) = (a +:+ "/", b).
Proof.
  intros Hb. induction a as [|c a IH].
  - rewrite !str_app_nil. cbn [posixpath.rsplit]. by rewrite (rsplit_no_sep b Hb).
  - rewrite !str_app_cons. cbn [posixpath.rsplit]. rewrite IH.
    destruct a; [by rewrite str_app_nil|by rewrite str_app_cons].
Qed.

Lemma all_sep_tmp x s : posixpath.all_sep ((x +:+ "tmp") +:+ s) = false.
Proof.
  induction x as [|c x IH]; [done|].
  rewrite !str_app_cons. cbn [posixpath.all_sep]. rewrite IH. apply andb_false_r.
Qed.

Lemma rstrip_tmp x : posixpath.rstrip ((x +:+ "tmp") +:+ "/") = x +:+ "tmp".
Proof.
  induction x as [|c x IH]; [done|].
  rewrite !str_app_cons. cbn [posixpath.rstrip]. rewrite IH.
  destruct x; [by rewrite str_app_nil|by rewrite str_app_cons].
Qed.

Lemma endswith_sep_app x c s :
  posixpath.endswith_sep (x +:+ String c s) = posixpath.endswith_sep (String c s).
Proof.
  induction x as [|d x IH]; [done|].
  rewrite str_app_cons.
  change (posixpath.endswith_sep (String d (x +:+ String c s)))
    with (match x +:+ String c s with
          | EmptyString => Ascii.eqb d posixpath.sep
          | _ => posixpath.endswith_sep (x +:+ String c s)
          end).
  rewrite <- IH.
  destruct x; [by rewrite str_app_nil|by rewrite str_app_cons].
Qed.

(** work_dir/tmp/ and work_dir/tmp/pair_name, for a pair name without
    separator *)
Lemma join_tmp_shape w pn :
  py.contains "/" pn = false →
  ∃ x, posixpath.join w ["tmp/"] = (x +:+ "tmp") +:+ "/"
       ∧ posixpath.join w ["tmp/"; pn] = (x +:+ "tmp") +:+ String "/" pn.
Proof.
  intros Hpn.
  assert (posixpath.startswith_sep pn = false) as Hstart.
  { destruct pn as [|c t]; [done|]. apply contains_char_cons in Hpn as [Hne _].
    cbn. destruct (Ascii.eqb_spec c posixpath.sep) as [->|]; [by destruct Hne|done]. }
  assert (∀ x, posixpath.join2 ((x +:+ "tmp") +:+ "/") pn
               = (x +:+ "tmp") +:+ String "/" pn) as Hjoin.
  { intros x.
    assert ((x +:+ "tmp") +:+ "/" = x +:+ "tmp/") as HT
      by (by rewrite append_assoc_str).
    assert (posixpath.endswith_sep ((x +:+ "tmp") +:+ "/") = true) as Hend
      by (by rewrite HT, endswith_sep_app).
    unfold posixpath.join2. rewrite Hstart, Hend.
    assert (∃ c t, (x +:+ "tmp") +:+ "/" = String c t) as (c & t & Heq).
    { rewrite HT. destruct x; [rewrite str_app_nil|rewrite str_app_cons]; eauto. }
    rewrite Heq, <- Heq. by rewrite !append_assoc_str. }
  assert (∃ x, posixpath.join2 w "tmp/" = (x +:+ "tmp") +:+ "/") as [x Hx].
  { unfold posixpath.join2. change (posixpath.startswith_sep "tmp/") with false.
    cbv iota. destruct w as [|c w']; [by exists ""|].
    destruct (posixpath.endswith_sep (String c w')).
    - exists (String c w'). by rewrite !append_assoc_str.
    - exists (String c w' +:+ "/"). by rewrite !append_assoc_str. }
  exists x.
  change (posixpath.join w ["tmp/"]) with (posixpath.join2 w "tmp/").
  change (posixpath.join w ["tmp/"; pn])
    with (posixpath.join2 (posixpath.join2 w "tmp/") pn).
  rewrite Hx. split; [done|apply Hjoin].
Qed.

Lemma dirname_tmp_pair w pn :
  py.contains "/" pn = false →
  posixpath.dirname (posixpath.join w ["tmp/"; pn]) +:+ "/"
  = posixpath.join w ["tmp/"].
Proof.
  intros Hpn. destruct (join_tmp_shape w pn Hpn) as (x & -> & ->).
  unfold posixpath.dirname. rewrite (rsplit_app _ _ Hpn). cbn [fst].
  by rewrite all_sep_tmp, rstrip_tmp.
Qed.

Lemma init_work_dir expanduser url wd cl dbg fa lr s :
  __init__ expanduser url wd cl dbg fa lr = Ok s → work_dir s = expanduser wd.
Proof.
  unfold __init__. destruct (py.first _); [|done].
  destruct fa as [[|p ps]|]; try (by intros [= <-]).
  destruct (issubset _ _); [by intros [= <-]|done].
Qed.

(** X21.  After a default [download] the directory that the cleanup
    removes, [dirname(tmp_dir)], is work_dir/tmp whatever the scene:
    two scenes constructed for the same work directory have the same
    cleanup target. *)
Theorem cleanup_target_shared (expanduser : string → string)
    (url1 url2 wd : string) (cl1 cl2 dbg1 dbg2 lr1 lr2 : bool)
    (fa1 fa2 : option (list string)) (s1 s2 : UavsarScene)
    dz (w1 w2 : World) (ann : bool) :
  __init__ expanduser url1 wd cl1 dbg1 fa1 lr1 = Ok s1 →
  __init__ expanduser url2 wd cl2 dbg2 fa2 lr2 = Ok s2 →
  ∃ root, root +:+ "/" = posixpath.join (expanduser wd) ["tmp/"]
    ∧ posixpath.dirname <$> tmp_dir (download dz "tmp/" ann (s1, w1)).2.1
      = Some root
    ∧ posixpath.dirname <$> tmp_dir (download dz "tmp/" ann (s2, w2)).2.1
      = Some root.
Proof.
  intros H1 H2.
  pose proof (init_shape _ _ _ _ _ _ _ _ H1) as (_ & Hp1 & _).
  pose proof (init_shape _ _ _ _ _ _ _ _ H2) as (_ & Hp2 & _).
  apply init_work_dir in H1, H2.
  exists (posixpath.dirname (posixpath.join (expanduser wd) ["tmp/"; pair_name s1])).
  split; [by apply dirname_tmp_pair|].
  destruct (download dz "tmp/" ann (s1, w1)) as [r1 st1] eqn:Hd1.
  destruct (download dz "tmp/" ann (s2, w2)) as [r2 st2] eqn:Hd2.
  apply download_inv in Hd1 as (Hs1 & _), Hd2 as (Hs2 & _).
  cbn [fst snd] in *. rewrite Hs1, Hs2.
  cbn [tmp_dir set_zipped_fp set_tmp_dir fmap option_fmap option_map].
  rewrite H1, H2. split; [done|]. f_equal.
  assert (∀ a b : string, a +:+ "/" = b +:+ "/" → a = b) as Hinj.
  { induction a as [|x a IH]; intros [|y b] Heq; cbn in Heq; try done.
    - injection Heq as <- Heq. by destruct b.
    - injection Heq as <- Heq. by destruct a.
    - injection Heq as <- Heq. f_equal. by apply IH. }
  apply Hinj. by rewrite !dirname_tmp_pair.
Qed.

Lemma cleanup_target_shared_witness :
  ∃ root, root +:+ "/" = posixpath.join (id "/w") ["tmp/"]
    ∧ posixpath.dirname <$>
        tmp_dir (download example_download_zip "tmp/" true
                   (new_scene true, empty_world)).2.1 = Some root
    ∧ posixpath.dirname <$>
        tmp_dir (download example_download_zip "tmp/" true
                   (example_scene "https://host/alamos.zip" "/w" false true,
                    lowman_world)).2.1 = Some root.
Proof.
  apply (cleanup_target_shared id "https://host/lowman.zip"
           "https://host/alamos.zip" "/w" true false false false false true
           None None); reflexivity.
Defined.
